(** * The catalog index, the normalizer and the tiered search of [app.py]

    A shallow embedding of [load_data], [normalize_product] and
    [search_products], followed by the properties of the product lookup
    service that hold (or fail) on it.

    Modelling choices.
    - A Python [str] is a Rocq [string] whose characters are the code
      points below 256; [lower], [strip] and [in] are Python's on that
      range.
    - A value read by [json.load] is a [json]; a Python [float] is an
      IEEE-754 binary64 value ([spec_float]).
    - A Python [dict] keeps insertion order: it is an association list
      whose keys are pairwise distinct, updated in place ([dict_set]).
    - A Python exception is a [Raise] result; the module globals are a
      [state] record threaded through [load_data].
    - Two builtins are not written out and are taken as parameters
      ([runtime]): [float] applied to a [str], and [repr] of a [float]. *)

From Stdlib Require Import List String Ascii ZArith Bool Arith Lia DecimalString.
From Stdlib Require Import Floats.SpecFloat.
From Stdlib Require Import Sorting.Sorted Sorting.Permutation.
Import ListNotations.
Set Warnings "-register-all".
Local Open Scope string_scope.
Local Open Scope list_scope.
Local Open Scope nat_scope.

(** ** Python strings *)

Module PyStr.

Definition code (c : ascii) : nat := nat_of_ascii c.

(** [str.isspace] on one character below 256. *)
Definition is_space (c : ascii) : bool :=
  let n := code c in
  ((9 <=? n) && (n <=? 13)) || ((28 <=? n) && (n <=? 32))
  || (n =? 133) || (n =? 160).

(** [str.lower] on one character below 256: A-Z and the Latin-1 capitals
    (192..222 but the multiplication sign 215) move up by 32. *)
Definition is_upper (c : ascii) : bool :=
  let n := code c in
  ((65 <=? n) && (n <=? 90))
  || ((192 <=? n) && (n <=? 222) && negb (n =? 215)).

Definition lower_char (c : ascii) : ascii :=
  if is_upper c then ascii_of_nat (code c + 32) else c.

Fixpoint lower (s : string) : string :=
  match s with
  | EmptyString => EmptyString
  | String c r => String (lower_char c) (lower r)
  end.

Fixpoint lstrip (s : string) : string :=
  match s with
  | EmptyString => EmptyString
  | String c r => if is_space c then lstrip r else s
  end.

Fixpoint rstrip (s : string) : string :=
  match s with
  | EmptyString => EmptyString
  | String c r =>
      match rstrip r with
      | EmptyString => if is_space c then EmptyString else String c EmptyString
      | r' => String c r'
      end
  end.

(** [s.strip()] *)
Definition strip (s : string) : string := rstrip (lstrip s).

(** [needle in hay] for two strings. *)
Fixpoint contains (needle hay : string) : bool :=
  String.prefix needle hay
  || match hay with
     | EmptyString => false
     | String _ r => contains needle r
     end.

(** Truth value of a string: [bool(s)]. *)
Definition truthy (s : string) : bool :=
  match s with EmptyString => false | _ => true end.

Definition whitespace_only (s : string) : Prop :=
  Forall (fun c => is_space c = true) (list_ascii_of_string s).

(** [repr] of a string: single quotes unless the text has a single quote
    and no double quote; backslash, the chosen quote, tab, newline and
    carriage return are escaped, the other non-printable characters are
    written [\xNN]. *)
Definition hex_digit (n : nat) : ascii :=
  if n <? 10 then ascii_of_nat (48 + n) else ascii_of_nat (87 + n).

Definition printable (c : ascii) : bool :=
  let n := code c in
  ((32 <=? n) && (n <=? 126)) || ((161 <=? n) && negb (n =? 173)).

Definition has_char (q : ascii) (s : string) : bool :=
  existsb (Ascii.eqb q) (list_ascii_of_string s).

Definition backslash : ascii := ascii_of_nat 92.

Definition escaped (c : ascii) : string :=
  String backslash (String c EmptyString).

Definition escape_char (quote c : ascii) : string :=
  if Ascii.eqb c backslash then escaped backslash
  else if Ascii.eqb c quote then escaped c
  else if code c =? 9 then escaped "t"%char
  else if code c =? 10 then escaped "n"%char
  else if code c =? 13 then escaped "r"%char
  else if printable c then String c EmptyString
  else String backslash (String "x"%char
         (String (hex_digit (code c / 16))
            (String (hex_digit (code c mod 16)) EmptyString))).

Definition double_quote : ascii := ascii_of_nat 34.
Definition single_quote : ascii := "'"%char.

Definition repr_str (s : string) : string :=
  let quote :=
    if has_char single_quote s && negb (has_char double_quote s)
    then double_quote else single_quote in
  String quote
    (String.concat EmptyString
       (map (escape_char quote) (list_ascii_of_string s))
     ++ String quote EmptyString)%string.

End PyStr.
Import PyStr.

(** ** Values, exceptions and insertion-ordered dictionaries *)

(** A Python [float]. *)
Definition float : Type := spec_float.

(** The precision and the exponent bound of binary64. *)
Definition prec : Z := 53.
Definition emax : Z := 1024.

(** The literal [0.0]. *)
Definition float_zero : float := S754_zero false.

(** What [json.load] builds: [None], [bool], [int], [float], [str], [list]
    and [dict] (string keys, in the order of the file). *)
Inductive json : Type :=
| JNull
| JBool (b : bool)
| JInt (z : Z)
| JFloat (f : float)
| JStr (s : string)
| JList (l : list json)
| JDict (d : list (string * json)).

(** A dictionary with string keys, in insertion order. *)
Definition pydict (V : Type) : Type := list (string * V).

(** A raw catalog record: a [dict] read from the catalog file. *)
Definition record : Type := pydict json.

Inductive exn : Type :=
| AttributeError
| TypeError
| KeyError
| ValueError
| OverflowError.

Inductive result (A : Type) : Type :=
| Ok (a : A)
| Raise (e : exn).
Arguments Ok {A} a.
Arguments Raise {A} e.

Definition bind {A B : Type} (r : result A) (k : A -> result B) : result B :=
  match r with
  | Ok a => k a
  | Raise e => Raise e
  end.

Notation "x <- r ;; k" := (bind r (fun x => k))
  (at level 61, r at next level, right associativity).

Section Dict.
Context {V : Type}.

(** [d.get(k)], [None] when the key is absent. *)
Fixpoint dict_get (d : pydict V) (k : string) : option V :=
  match d with
  | [] => None
  | (k', v) :: r => if String.eqb k' k then Some v else dict_get r k
  end.

(** [d.get(k, dflt)] *)
Definition dict_get_default (d : pydict V) (k : string) (dflt : V) : V :=
  match dict_get d k with
  | Some v => v
  | None => dflt
  end.

(** [k in d] *)
Definition dict_mem (d : pydict V) (k : string) : bool :=
  match dict_get d k with
  | Some _ => true
  | None => false
  end.

(** [d[k] = v]: an existing key keeps its place, a new key goes last. *)
Fixpoint dict_set (d : pydict V) (k : string) (v : V) : pydict V :=
  match d with
  | [] => [(k, v)]
  | (k', v') :: r =>
      if String.eqb k' k then (k, v) :: r else (k', v') :: dict_set r k v
  end.

(** [d[k]], a [KeyError] when the key is absent. *)
Definition dict_index (d : pydict V) (k : string) : result V :=
  match dict_get d k with
  | Some v => Ok v
  | None => Raise KeyError
  end.

Definition dict_keys (d : pydict V) : list string := map fst d.
Definition dict_values (d : pydict V) : list V := map snd d.

End Dict.

(** ** The builtins [str] and [float] *)

(** The two builtins that stay parameters: [float(s)] for a string [s]
    ([None] when Python raises [ValueError]) and [repr(f)] for a float. *)
Record runtime : Type := {
  float_of_str : string -> option float;
  repr_float : float -> string
}.

(** [float(n)] for an [int]: the nearest binary64 value, ties to even, and
    an [OverflowError] when the integer is too large. *)
Definition float_of_int (z : Z) : result float :=
  match binary_normalize prec emax z 0 false with
  | S754_infinity _ => Raise OverflowError
  | f => Ok f
  end.

(** [str(n)] for an [int]. *)
Definition str_of_int (z : Z) : string := NilZero.string_of_int (Z.to_int z).

Section Builtins.
Variable R : runtime.

(** [repr(v)] *)
Fixpoint repr (v : json) : string :=
  match v with
  | JNull => "None"
  | JBool true => "True"
  | JBool false => "False"
  | JInt z => str_of_int z
  | JFloat f => repr_float R f
  | JStr s => repr_str s
  | JList l => ("[" ++ String.concat ", " (map repr l) ++ "]")%string
  | JDict d =>
      ("{" ++ String.concat ", "
                (map (fun kv => match kv with
                                | (k, x) => (repr_str k ++ ": " ++ repr x)%string
                                end) d)
           ++ "}")%string
  end.

(** [str(v)]: a string is itself, everything else is its [repr]. *)
Definition str (v : json) : string :=
  match v with
  | JStr s => s
  | _ => repr v
  end.

(** [float(v)] *)
Definition py_float (v : json) : result float :=
  match v with
  | JBool true => float_of_int 1
  | JBool false => float_of_int 0
  | JInt z => float_of_int z
  | JFloat f => Ok f
  | JStr s =>
      match float_of_str R s with
      | Some f => Ok f
      | None => Raise ValueError
      end
  | JNull | JList _ | JDict _ => Raise TypeError
  end.

End Builtins.

(** ** The module globals and the files of the data directory *)

Record state : Type := {
  PRODUCTS_MAP : pydict record;
  PRODUCT_NAMES_MAP : pydict string;
  RECOMMENDATIONS : json
}.

(** The globals as the module defines them, before [load_data] runs. *)
Definition initial_state : state :=
  {| PRODUCTS_MAP := []; PRODUCT_NAMES_MAP := []; RECOMMENDATIONS := JDict [] |}.

(** A file of [DATA_DIR] as [load_data] sees it: not there, there but
    [open]/[json.load] raises, or parsed. *)
Inductive file : Type :=
| Absent
| Malformed
| Content (raw : json).

Record disk : Type := {
  data_dir_exists : bool;
  product_matrix_json : file;
  product_index_map_json : file;
  precomputed_hybrid_json : file
}.

(** How a [try] block ended. *)
Inductive outcome : Type :=
| Completed
| Failed (e : exn).

Definition set_product (pid : string) (item : record) (st : state) : state :=
  {| PRODUCTS_MAP := dict_set (PRODUCTS_MAP st) pid item;
     PRODUCT_NAMES_MAP := PRODUCT_NAMES_MAP st;
     RECOMMENDATIONS := RECOMMENDATIONS st |}.

Definition set_name (name pid : string) (st : state) : state :=
  {| PRODUCTS_MAP := PRODUCTS_MAP st;
     PRODUCT_NAMES_MAP := dict_set (PRODUCT_NAMES_MAP st) name pid;
     RECOMMENDATIONS := RECOMMENDATIONS st |}.

Definition set_recommendations (table : json) (st : state) : state :=
  {| PRODUCTS_MAP := PRODUCTS_MAP st;
     PRODUCT_NAMES_MAP := PRODUCT_NAMES_MAP st;
     RECOMMENDATIONS := table |}.

(** ** [load_data] *)

Section Load.
Variable R : runtime.

(** [str(item.get('product_id_numeric', item.get('product_id', 'N/A')))] *)
Definition item_pid (item : record) : string :=
  str R (dict_get_default item "product_id_numeric"
           (dict_get_default item "product_id" (JStr "N/A"))).

(** [item.get('product_name', '').strip()]: only a [str] has [strip]. *)
Definition item_name (item : record) : result string :=
  match dict_get_default item "product_name" (JStr "") with
  | JStr s => Ok (strip s)
  | _ => Raise AttributeError
  end.

(** One turn of the [for item in data_list] loop. A [str] is skipped; a
    [dict] is indexed unless its identifier is the text [None]; any
    other value has no [get]. *)
Definition load_item (item : json) (st : state) : state * outcome :=
  match item with
  | JStr _ => (st, Completed)
  | JDict d =>
      let pid := item_pid d in
      if String.eqb pid "None" then (st, Completed)
      else
        let st1 := set_product pid d st in
        match item_name d with
        | Ok n => (set_name n pid st1, Completed)
        | Raise e => (st1, Failed e)
        end
  | _ => (st, Failed AttributeError)
  end.

(** The loop: an exception leaves it, with the globals as they are. *)
Fixpoint load_items (items : list json) (st : state) : state * outcome :=
  match items with
  | [] => (st, Completed)
  | item :: rest =>
      match load_item item st with
      | (st', Completed) => load_items rest st'
      | (st', Failed e) => (st', Failed e)
      end
  end.

(** [raw if isinstance(raw, list) else [v for k,v in raw.items()] if
    isinstance(raw, dict) else []] *)
Definition data_list (raw : json) : list json :=
  match raw with
  | JList l => l
  | JDict d => dict_values d
  | _ => []
  end.

(** The first candidate file that exists. *)
Definition matrix_path (d : disk) : file :=
  match product_matrix_json d with
  | Absent => product_index_map_json d
  | f => f
  end.

(** The catalog [try] block. *)
Definition load_catalog (f : file) (st : state) : state * outcome :=
  match f with
  | Absent => (st, Completed)
  | Malformed => (st, Failed ValueError)
  | Content raw => load_items (data_list raw) st
  end.

(** The recommendation [try] block: [except: pass]. *)
Definition load_recommendations (f : file) (st : state) : state :=
  match f with
  | Content table => set_recommendations table st
  | _ => st
  end.

Definition load_data (d : disk) (st : state) : state :=
  if data_dir_exists d then
    load_recommendations (precomputed_hybrid_json d)
      (fst (load_catalog (matrix_path d) st))
  else st.

(** Whether the catalog [try] block reached its [except] branch. *)
Definition catalog_outcome (d : disk) (st : state) : outcome :=
  if data_dir_exists d then snd (load_catalog (matrix_path d) st)
  else Completed.

(** The globals after each assignment of the loop, oldest first. *)
Definition load_item_trace (item : json) (st : state) : list state :=
  match item with
  | JDict d =>
      let pid := item_pid d in
      if String.eqb pid "None" then []
      else
        let st1 := set_product pid d st in
        match item_name d with
        | Ok n => [st1; set_name n pid st1]
        | Raise _ => [st1]
        end
  | _ => []
  end.

Fixpoint load_items_trace (items : list json) (st : state) : list state :=
  match items with
  | [] => []
  | item :: rest =>
      load_item_trace item st
      ++ match load_item item st with
         | (st', Completed) => load_items_trace rest st'
         | (_, Failed _) => []
         end
  end.

(** Every value the globals take while [load_data] runs, from the state
    at entry to the state at return. *)
Definition load_data_trace (d : disk) (st : state) : list state :=
  if data_dir_exists d then
    st :: match matrix_path d with
          | Content raw => load_items_trace (data_list raw) st
          | _ => []
          end
       ++ [load_data d st]
  else [st].

End Load.

(** ** [normalize_product] *)

(** The dictionary [normalize_product] returns, one field per key. *)
Record normalized : Type := {
  p_id : string;
  name : json;
  brand : json;
  rating : json;
  prices : float;
  discounted_price : float;
  img_link : json;
  p_link : json
}.

Section Normalize.
Variable R : runtime.

(** [try: price = float(p.get('actual_price', 0))] / [except: price = 0.0] *)
Definition price_of (p : record) : float :=
  match py_float R (dict_get_default p "actual_price" (JInt 0)) with
  | Ok f => f
  | Raise _ => float_zero
  end.

(** [try: disc = float(p.get('discounted_price', price))] /
    [except: disc = price] *)
Definition disc_of (p : record) (price : float) : float :=
  match py_float R (dict_get_default p "discounted_price" (JFloat price)) with
  | Ok f => f
  | Raise _ => price
  end.

Definition normalize_product (p : record) : normalized :=
  let price := price_of p in
  let disc := disc_of p price in
  {| p_id := str R (dict_get_default p "product_id_numeric" JNull);
     name := dict_get_default p "product_name" (JStr "Unknown");
     brand := dict_get_default p "Brand" (JStr "Generic");
     rating := dict_get_default p "rating" (JInt 0);
     prices := price;
     discounted_price := disc;
     img_link := dict_get_default p "img_link" (JStr "");
     p_link := dict_get_default p "product_link" (JStr "#") |}.

End Normalize.

(** ** [search_products] *)

(** [list.sort(key=lambda x: x[0], reverse=True)]: the stable sort by
    decreasing key. Each element is put in front of the sorted rest, after
    the elements whose key is strictly larger. *)
Section StableSort.
Context {A : Type}.

Fixpoint insert_desc (x : nat * A) (l : list (nat * A)) : list (nat * A) :=
  match l with
  | [] => [x]
  | y :: r => if fst x <? fst y then y :: insert_desc x r else x :: l
  end.

Fixpoint sort_desc (l : list (nat * A)) : list (nat * A) :=
  match l with
  | [] => []
  | x :: r => insert_desc x (sort_desc r)
  end.

End StableSort.

Section Search.
Variable R : runtime.

(** [str(p.get('Brand')).lower()] *)
Definition brand_lower (p : record) : string :=
  lower (str R (dict_get_default p "Brand" JNull)).

(** [p.get('product_name', '').lower()]: only a [str] has [lower]. *)
Definition name_lower (p : record) : result string :=
  match dict_get_default p "product_name" (JStr "") with
  | JStr s => Ok (lower s)
  | _ => Raise AttributeError
  end.

(** Tier 1: [query == str(p.get('Brand')).lower()] *)
Definition brand_match (query : string) (p : record) : bool :=
  String.eqb query (brand_lower p).

Definition brand_matches (query : string) (st : state) : list record :=
  filter (brand_match query) (dict_values (PRODUCTS_MAP st)).

(** Tier 2, the anchor loop: the identifier of the first record whose
    lowered name contains the query. *)
Fixpoint find_anchor (query : string) (items : pydict record)
  : result (option string) :=
  match items with
  | [] => Ok None
  | (pid, p) :: rest =>
      n <- name_lower p ;;
      if contains query n then Ok (Some pid) else find_anchor query rest
  end.

(** [k in c] for a string [k] and a loaded value [c]. *)
Definition py_in (k : string) (c : json) : result bool :=
  match c with
  | JDict d => Ok (dict_mem d k)
  | JList l =>
      Ok (existsb (fun v => match v with
                            | JStr s => String.eqb s k
                            | _ => false
                            end) l)
  | JStr s => Ok (contains k s)
  | _ => Raise TypeError
  end.

(** [c[k]] for a string [k]: only a [dict] takes a string subscript. *)
Definition py_index (c : json) (k : string) : result json :=
  match c with
  | JDict d => dict_index d k
  | _ => Raise TypeError
  end.

(** The values a [for] loop over [c] visits. *)
Definition py_iter (c : json) : result (list json) :=
  match c with
  | JList l => Ok l
  | JDict d => Ok (map JStr (dict_keys d))
  | JStr s =>
      Ok (map (fun ch => JStr (String ch EmptyString)) (list_ascii_of_string s))
  | _ => Raise TypeError
  end.

(** One recommendation stub: the record its name resolves to, if any.
    [rec.get] needs a [dict]; a [list] or [dict] name cannot be hashed;
    a name that is not a string is the key of no entry. *)
Definition resolve_rec (st : state) (rec : json) : result (option record) :=
  match rec with
  | JDict d =>
      match dict_get_default d "product_name" JNull with
      | JStr n =>
          match dict_get (PRODUCT_NAMES_MAP st) n with
          | Some pid => p <- dict_index (PRODUCTS_MAP st) pid ;; Ok (Some p)
          | None => Ok None
          end
      | JList _ | JDict _ => Raise TypeError
      | _ => Ok None
      end
  | _ => Raise AttributeError
  end.

Fixpoint resolve_all (st : state) (recs : list json) : result (list record) :=
  match recs with
  | [] => Ok []
  | rec :: rest =>
      o <- resolve_rec st rec ;;
      l <- resolve_all st rest ;;
      Ok (match o with Some p => p :: l | None => l end)
  end.

(** Tier 2 after the anchor loop: [results]. *)
Definition hybrid_results (st : state) (matched_id : option string)
  : result (list record) :=
  match matched_id with
  | None => Ok []
  | Some pid =>
      if truthy pid then
        found <- py_in pid (RECOMMENDATIONS st) ;;
        if found then
          rec_list <- py_index (RECOMMENDATIONS st) pid ;;
          recs <- py_iter rec_list ;;
          resolve_all st recs
        else Ok []
      else Ok []
  end.

(** Tier 3: the score of one record. *)
Definition score (query : string) (p : record) : result nat :=
  n <- name_lower p ;;
  Ok ((if contains query n then 10 else 0)
      + (if contains query (brand_lower p) then 5 else 0)).

(** Tier 3, the scan: [scored]. *)
Fixpoint scan (query : string) (ps : list record)
  : result (list (nat * record)) :=
  match ps with
  | [] => Ok []
  | p :: rest =>
      s <- score query p ;;
      l <- scan query rest ;;
      Ok (if 0 <? s then (s, p) :: l else l)
  end.

Definition fallback (query : string) (st : state) : result (list record) :=
  scored <- scan query (dict_values (PRODUCTS_MAP st)) ;;
  Ok (map snd (firstn 20 (sort_desc scored))).

(** [request.args.get('q', '')] *)
Definition q_arg (q : option string) : string :=
  match q with
  | Some s => s
  | None => EmptyString
  end.

(** [request.args.get('q', '').lower().strip()] *)
Definition query_of (q : option string) : string :=
  strip (lower (q_arg q)).

(** The records of the answer, before they are normalized. *)
Definition search_records (q : option string) (st : state)
  : result (list record) :=
  let query := query_of q in
  if truthy query then
    match brand_matches query st with
    | (_ :: _) as found => Ok (firstn 20 found)
    | [] =>
        matched_id <- find_anchor query (PRODUCTS_MAP st) ;;
        results <- hybrid_results st matched_id ;;
        match results with
        | _ :: _ => Ok (firstn 20 results)
        | [] => fallback query st
        end
    end
  else Ok [].

Definition search_products (q : option string) (st : state)
  : result (list normalized) :=
  recs <- search_records q st ;;
  Ok (map (normalize_product R) recs).

End Search.

(** ** The properties stated about the model *)

(** Every identifier stored in the name map is a key of the product map. *)
Definition names_resolve (st : state) : Prop :=
  forall pid, In pid (dict_values (PRODUCT_NAMES_MAP st)) ->
              In pid (dict_keys (PRODUCTS_MAP st)).

(** No record is filed under the text [None]. *)
Definition no_None_key (st : state) : Prop :=
  forall k, In k (dict_keys (PRODUCTS_MAP st)) -> k <> "None".

(** A data directory that holds the catalog file [product_matrix.json]
    and nothing else. *)
Definition catalog_only (raw : json) : disk :=
  {| data_dir_exists := true;
     product_matrix_json := Content raw;
     product_index_map_json := Absent;
     precomputed_hybrid_json := Absent |}.

(** The field is there and [float] accepts its value. *)
Definition field_numeric (R : runtime) (p : record) (field : string) : bool :=
  match dict_get p field with
  | Some v => match py_float R v with Ok _ => true | Raise _ => false end
  | None => false
  end.

(** The display name of a record is a string, or absent. *)
Definition name_is_str (p : record) : Prop :=
  match dict_get_default p "product_name" (JStr "") with
  | JStr _ => True
  | _ => False
  end.

Definition names_are_strings (st : state) : Prop :=
  Forall name_is_str (dict_values (PRODUCTS_MAP st)).

(** A recommendation stub is a record whose name can be hashed. *)
Definition stub_ok (rec : json) : Prop :=
  match rec with
  | JDict d =>
      match dict_get_default d "product_name" JNull with
      | JList _ | JDict _ => False
      | _ => True
      end
  | _ => False
  end.

Definition stubs_ok (v : json) : Prop :=
  match v with
  | JList l => Forall stub_ok l
  | _ => False
  end.

(** The recommendation table maps identifiers to lists of stubs. *)
Definition table_ok (t : json) : Prop :=
  match t with
  | JDict d => Forall stubs_ok (dict_values d)
  | _ => False
  end.

Definition well_formed (st : state) : Prop :=
  names_are_strings st /\ table_ok (RECOMMENDATIONS st) /\ names_resolve st.

(** The lowered name contains the query. *)
Definition name_has (query : string) (p : record) : bool :=
  match name_lower p with
  | Ok n => contains query n
  | Raise _ => false
  end.

(** The lowered brand contains the query. *)
Definition brand_has (R : runtime) (query : string) (p : record) : bool :=
  contains query (brand_lower R p).

Definition score_value (R : runtime) (query : string) (p : record) : nat :=
  (if name_has query p then 10 else 0) + (if brand_has R query p then 5 else 0).

(** The records of one score, in the order of the scan. *)
Definition with_score (R : runtime) (query : string) (k : nat) (ps : list record)
  : list record :=
  filter (fun p => score_value R query p =? k) ps.

(** By decreasing key. *)
Definition desc {A : Type} (x y : nat * A) : Prop := fst y <= fst x.

(** The elements of one key, in the order of the list. *)
Definition with_key {A : Type} (k : nat) (l : list (nat * A)) : list (nat * A) :=
  filter (fun y => fst y =? k) l.

(** A record with its score, and the test [score > 0] of the scan. *)
Definition tag (R : runtime) (query : string) (p : record) : nat * record :=
  (score_value R query p, p).

Definition positive_score (sp : nat * record) : bool := 0 <? fst sp.

(** ** A runtime to run the model on examples

    [float] of a string is Python's on the strings that are, once
    stripped, an optional sign and decimal digits (the other strings are
    refused, which is Python's answer only for the strings that are no
    numeral at all); [repr] of a float is Python's on the zeros, the
    infinities, NaN and the whole numbers below ten to the sixteenth (the
    other floats print as the empty string, which is not Python's answer).
    The examples below stay inside these ranges. *)
Module ExampleRuntime.

Fixpoint digits_value (s : string) (acc : Z) : option Z :=
  match s with
  | EmptyString => Some acc
  | String c r =>
      let n := code c in
      if (48 <=? n) && (n <=? 57)
      then digits_value r (10 * acc + Z.of_nat (n - 48))%Z
      else None
  end.

Definition signed_digits (s : string) : option (bool * Z) :=
  match s with
  | EmptyString => None
  | String "-" (String _ _ as r) => option_map (pair true) (digits_value r 0%Z)
  | String "+" (String _ _ as r) => option_map (pair false) (digits_value r 0%Z)
  | _ => option_map (pair false) (digits_value s 0%Z)
  end.

Definition float_of_digits (s : string) : option float :=
  match signed_digits (strip s) with
  | Some (neg, z) =>
      Some (binary_normalize prec emax (if neg then - z else z)%Z 0 neg)
  | None => None
  end.

Definition whole_part (m : positive) (e : Z) : option Z :=
  if (0 <=? e)%Z then Some (Zpos m * 2 ^ e)%Z
  else if (Zpos m mod 2 ^ (- e) =? 0)%Z then Some (Zpos m / 2 ^ (- e))%Z
  else None.

Definition repr_whole (f : float) : string :=
  match f with
  | S754_zero false => "0.0"
  | S754_zero true => "-0.0"
  | S754_infinity false => "inf"
  | S754_infinity true => "-inf"
  | S754_nan => "nan"
  | S754_finite neg m e =>
      match whole_part m e with
      | Some z =>
          if (z <? 10 ^ 16)%Z
          then ((if neg then "-" else "") ++ str_of_int z ++ ".0")%string
          else EmptyString
      | None => EmptyString
      end
  end.

Definition py : runtime :=
  {| float_of_str := float_of_digits; repr_float := repr_whole |}.

End ExampleRuntime.

(** ** Example catalogs *)

Module Scenarios.
Import ExampleRuntime.

Definition blue : record :=
  [("product_id_numeric", JInt 1); ("product_name", JStr "Blue Widget");
   ("Brand", JStr "Acme")].
Definition red : record :=
  [("product_id_numeric", JInt 2); ("product_name", JStr "Red Widget");
   ("Brand", JStr "Acme")].

Definition files : disk :=
  {| data_dir_exists := true;
     product_matrix_json := Content (JList [JDict blue; JDict red]);
     product_index_map_json := Absent;
     precomputed_hybrid_json :=
       Content (JDict [("1", JList [JDict [("product_name", JStr "Red Widget")]])]) |}.

Definition loaded : state := load_data py files initial_state.

End Scenarios.

Definition pen : record := [("product_id", JInt 7); ("product_name", JStr "Pen")].

Definition unpriced : record :=
  [("product_id_numeric", JInt 3); ("actual_price", JStr "N/A")].

Definition discounted_only : record := [("discounted_price", JInt 50)].

Definition blanks : string :=
  String " " (String (ascii_of_nat 9) (String (ascii_of_nat 10) EmptyString)).




Module Lamps.

Definition sun_lamp : record :=
  [("product_id_numeric", JInt 1); ("product_name", JStr "Sun Lamp");
   ("Brand", JStr "Acme")].
Definition lamp : record :=
  [("product_id_numeric", JInt 2); ("product_name", JStr "Lamp");
   ("Brand", JStr "Lampco")].
Definition desk : record :=
  [("product_id_numeric", JInt 3); ("product_name", JStr "Desk");
   ("Brand", JStr "Lamps Inc")].
Definition chair : record :=
  [("product_id_numeric", JInt 4); ("product_name", JStr "Chair")].
Definition floor_lamp : record :=
  [("product_id_numeric", JInt 5); ("product_name", JStr "Floor lamp");
   ("Brand", JStr "Acme")].

Definition loaded : state :=
  load_data ExampleRuntime.py
    (catalog_only
       (JList [JDict sun_lamp; JDict lamp; JDict desk; JDict chair;
               JDict floor_lamp]))
    initial_state.

End Lamps.

(** ** [get_top_products] and further properties of the model *)

(** [get_top_products]: nothing for an empty catalog, else the first
    twenty records of the catalog, normalized. *)
Definition get_top_products (R : runtime) (st : state) : list normalized :=
  match PRODUCTS_MAP st with
  | [] => []
  | _ :: _ =>
      map (normalize_product R) (firstn 20 (dict_values (PRODUCTS_MAP st)))
  end.

(** Every record is filed under the identifier the loop derives from it. *)
Definition filed_by_pid (R : runtime) (st : state) : Prop :=
  forall k p, In (k, p) (PRODUCTS_MAP st) -> k = item_pid R p.

(** The keys of both maps are pairwise distinct. *)
Definition distinct_keys (st : state) : Prop :=
  NoDup (dict_keys (PRODUCTS_MAP st)) /\ NoDup (dict_keys (PRODUCT_NAMES_MAP st)).

(** The keys of the name map have no whitespace at either end. *)
Definition names_stripped (st : state) : Prop :=
  forall n, In n (dict_keys (PRODUCT_NAMES_MAP st)) -> strip n = n.

(** The keys of both maps before the load are a prefix of the keys after. *)
Definition extends (st0 st : state) : Prop :=
  (exists more, dict_keys (PRODUCTS_MAP st) = dict_keys (PRODUCTS_MAP st0) ++ more)
  /\ (exists more, dict_keys (PRODUCT_NAMES_MAP st)
                   = dict_keys (PRODUCT_NAMES_MAP st0) ++ more).

(** The catalog record a recommendation stub stands for, if its name is a
    string that the name map knows and whose identifier is indexed. *)
Definition stub_target (st : state) (rec : json) : option record :=
  match rec with
  | JDict d =>
      match dict_get_default d "product_name" JNull with
      | JStr n =>
          match dict_get (PRODUCT_NAMES_MAP st) n with
          | Some pid => dict_get (PRODUCTS_MAP st) pid
          | None => None
          end
      | _ => None
      end
  | _ => None
  end.

(** The targets of a list of stubs, in the order of the list. *)
Definition resolved (st : state) (recs : list json) : list record :=
  flat_map (fun rec => match stub_target st rec with
                       | Some p => [p]
                       | None => []
                       end) recs.

(** The same data directory with other candidate or recommendation files. *)
Definition with_index_map (f : file) (d : disk) : disk :=
  {| data_dir_exists := data_dir_exists d;
     product_matrix_json := product_matrix_json d;
     product_index_map_json := f;
     precomputed_hybrid_json := precomputed_hybrid_json d |}.

Definition with_hybrid (f : file) (d : disk) : disk :=
  {| data_dir_exists := data_dir_exists d;
     product_matrix_json := product_matrix_json d;
     product_index_map_json := product_index_map_json d;
     precomputed_hybrid_json := f |}.

Definition with_catalog (f1 f2 : file) (d : disk) : disk :=
  {| data_dir_exists := data_dir_exists d;
     product_matrix_json := f1;
     product_index_map_json := f2;
     precomputed_hybrid_json := precomputed_hybrid_json d |}.

Definition padded : record :=
  [("product_id_numeric", JInt 4); ("product_name", JStr "  Tea Pot ")].

Definition nameless : record :=
  [("product_id_numeric", JInt 1); ("product_name", JNull)].

Definition priced : record :=
  [("product_id_numeric", JInt 8); ("actual_price", JInt 50);
   ("discounted_price", JStr "n/a")].

Definition null_id : record :=
  [("product_id_numeric", JNull); ("product_id", JInt 5); ("product_name", JStr "Mug")].

Definition blue_again : record :=
  [("product_id_numeric", JStr "1"); ("product_name", JStr "Blue")].

(** * Facts *)

(** ** Running the model: the scenarios of the specification *)

Module ScenarioRuns.
Import ExampleRuntime Scenarios.

Example loaded_index :
  PRODUCTS_MAP loaded = [("1", blue); ("2", red)]
  /\ PRODUCT_NAMES_MAP loaded = [("Blue Widget", "1"); ("Red Widget", "2")].
Proof. split; reflexivity. Qed.

Example query_acme :
  search_records py (Some "acme") loaded = Ok [blue; red].
Proof. reflexivity. Qed.

Example query_blue :
  search_records py (Some "blue") loaded = Ok [red].
Proof. reflexivity. Qed.

Example query_widget_upper :
  search_records py (Some " WIDGET ") loaded = Ok [red].
Proof. reflexivity. Qed.

Example query_zzz :
  search_records py (Some "zzz") loaded = Ok [].
Proof. reflexivity. Qed.

Example query_red_falls_back :
  search_records py (Some "red") loaded = Ok [red].
Proof. reflexivity. Qed.

Example empty_catalog_answers_nothing :
  search_products py (Some "acme") initial_state = Ok [].
Proof. reflexivity. Qed.

Example normalized_blue :
  normalize_product py blue
  = {| p_id := "1"; name := JStr "Blue Widget"; brand := JStr "Acme";
       rating := JInt 0; prices := float_zero; discounted_price := float_zero;
       img_link := JStr ""; p_link := JStr "#" |}.
Proof. reflexivity. Qed.

Example float_of_text :
  py_float py (JStr " 50 ") = py_float py (JInt 50)
  /\ py_float py (JStr "fifty") = Raise ValueError
  /\ str py (JFloat float_zero) = "0.0".
Proof. repeat split; reflexivity. Qed.

(** A record whose name is not a string is indexed before the loop
    fails on it, and a search that reads names then raises. *)
Example nameless_record_is_kept :
  let item := [("product_id_numeric", JInt 1); ("product_name", JNull)] in
  let files := catalog_only (JList [JDict item]) in
  load_data py files initial_state
  = {| PRODUCTS_MAP := [("1", item)]; PRODUCT_NAMES_MAP := [];
       RECOMMENDATIONS := JDict [] |}
  /\ catalog_outcome py files initial_state = Failed AttributeError
  /\ search_products py (Some "lamp") (load_data py files initial_state)
     = Raise AttributeError.
Proof. repeat split. Qed.

Example second_candidate_file :
  let files := {| data_dir_exists := true;
                  product_matrix_json := Absent;
                  product_index_map_json := Content (JDict [("k", JDict red)]);
                  precomputed_hybrid_json := Malformed |} in
  load_data py files initial_state
  = {| PRODUCTS_MAP := [("2", red)]; PRODUCT_NAMES_MAP := [("Red Widget", "2")];
       RECOMMENDATIONS := JDict [] |}.
Proof. reflexivity. Qed.

Example later_record_overwrites :
  let again := [("product_id_numeric", JStr "1"); ("product_name", JStr " Blue Widget ")] in
  load_data py (catalog_only (JList [JDict blue; JDict red; JDict again])) initial_state
  = {| PRODUCTS_MAP := [("1", again); ("2", red)];
       PRODUCT_NAMES_MAP := [("Blue Widget", "1"); ("Red Widget", "2")];
       RECOMMENDATIONS := JDict [] |}.
Proof. reflexivity. Qed.

End ScenarioRuns.

(** ** Facts about dictionaries *)

Section DictFacts.
Context {V : Type}.
Implicit Types (d : pydict V) (k : string) (v : V).

Lemma dict_keys_set d k v k' :
  In k' (dict_keys (dict_set d k v)) <-> k' = k \/ In k' (dict_keys d).
Proof.
  induction d as [|[k0 v0] d IH]; simpl.
  - intuition.
  - destruct (String.eqb_spec k0 k) as [->|Hne]; simpl.
    + intuition.
    + rewrite IH. intuition.
Qed.

Lemma dict_set_In d k v k' v' :
  In (k', v') (dict_set d k v) -> (k' = k /\ v' = v) \/ In (k', v') d.
Proof.
  induction d as [|[k0 v0] d IH]; simpl.
  - intros [H|[]]. inversion H. auto.
  - destruct (String.eqb_spec k0 k) as [->|Hne]; simpl.
    + intros [H|H]; [inversion H; auto | auto].
    + intros [H|H]; [auto | destruct (IH H); auto].
Qed.

Lemma dict_values_set d k v x :
  In x (dict_values (dict_set d k v)) -> x = v \/ In x (dict_values d).
Proof.
  unfold dict_values. rewrite !in_map_iff.
  intros [[k' v'] [<- Hin]]. simpl.
  destruct (dict_set_In _ _ _ _ _ Hin) as [[_ ->]|H]; [now left|right].
  exists (k', v'). auto.
Qed.

Lemma dict_get_In d k v : dict_get d k = Some v -> In (k, v) d.
Proof.
  induction d as [|[k0 v0] d IH]; simpl; [discriminate|].
  destruct (String.eqb_spec k0 k) as [->|Hne].
  - intros [= ->]. now left.
  - intros H. right. auto.
Qed.

Lemma dict_mem_keys d k : dict_mem d k = true <-> In k (dict_keys d).
Proof.
  unfold dict_mem.
  induction d as [|[k0 v0] d IH]; simpl.
  - split; [discriminate | intros []].
  - destruct (String.eqb_spec k0 k) as [->|Hne].
    + intuition.
    + rewrite IH. intuition.
Qed.

Lemma dict_get_set_same d k v : dict_get (dict_set d k v) k = Some v.
Proof.
  induction d as [|[k0 v0] d IH]; simpl.
  - now rewrite String.eqb_refl.
  - destruct (String.eqb_spec k0 k) as [->|Hne]; simpl.
    + now rewrite String.eqb_refl.
    + destruct (String.eqb_spec k0 k); [contradiction | exact IH].
Qed.

End DictFacts.

(** ** The invariants of the load loop *)

Section LoadFacts.
Variable R : runtime.

Lemma names_resolve_initial : names_resolve initial_state.
Proof. intros pid []. Qed.

Lemma names_resolve_set_product pid item st :
  names_resolve st -> names_resolve (set_product pid item st).
Proof.
  intros H x Hx. simpl in *. apply dict_keys_set. right. auto.
Qed.

Lemma names_resolve_set_name n pid st :
  names_resolve st -> In pid (dict_keys (PRODUCTS_MAP st)) ->
  names_resolve (set_name n pid st).
Proof.
  intros H Hpid x Hx. simpl in *.
  destruct (dict_values_set _ _ _ _ Hx) as [->|Hold]; auto.
Qed.

Lemma names_resolve_set_recommendations table st :
  names_resolve st -> names_resolve (set_recommendations table st).
Proof. intros H x Hx. exact (H x Hx). Qed.

Lemma set_product_has_key pid item st :
  In pid (dict_keys (PRODUCTS_MAP (set_product pid item st))).
Proof. simpl. apply dict_keys_set. now left. Qed.

(** One turn of the loop keeps the invariant, at both assignments. *)
Lemma load_item_names_resolve item st :
  names_resolve st ->
  Forall names_resolve (load_item_trace R item st)
  /\ names_resolve (fst (load_item R item st)).
Proof.
  intros H. destruct item; simpl; auto.
  destruct (String.eqb (item_pid R d) "None"); simpl; auto.
  pose proof (names_resolve_set_product (item_pid R d) d st H) as H1.
  pose proof (set_product_has_key (item_pid R d) d st) as Hk.
  destruct (item_name d) as [n|e]; simpl.
  - pose proof (names_resolve_set_name n _ _ H1 Hk). auto.
  - auto.
Qed.

Lemma load_items_names_resolve items : forall st,
  names_resolve st ->
  Forall names_resolve (load_items_trace R items st)
  /\ names_resolve (fst (load_items R items st)).
Proof.
  induction items as [|item rest IH]; intros st H; simpl; auto.
  destruct (load_item_names_resolve item st H) as [Ht Hf].
  destruct (load_item R item st) as [st' [|e]]; simpl in *.
  - destruct (IH st' Hf) as [Ht' Hf']. split; auto.
    apply Forall_app. auto.
  - split; auto. rewrite app_nil_r. exact Ht.
Qed.

(** The trace of one turn ends in the state the turn returns. *)
Lemma load_item_trace_last item st :
  last (load_item_trace R item st) st = fst (load_item R item st).
Proof.
  destruct item; simpl; auto.
  destruct (String.eqb (item_pid R d) "None"); simpl; auto.
  destruct (item_name d); reflexivity.
Qed.

Lemma last_cons_default {A} (l : list A) : forall x a : A,
  last (x :: l) a = last l x.
Proof.
  induction l as [|y l IH]; intros x a; [reflexivity|].
  change (last (x :: y :: l) a) with (last (y :: l) a).
  now rewrite !IH.
Qed.

Lemma last_app_default {A} (l1 l2 : list A) : forall a : A,
  last (l1 ++ l2) a = last l2 (last l1 a).
Proof.
  induction l1 as [|x l1 IH]; intros a; [reflexivity|].
  rewrite <- app_comm_cons, !last_cons_default. apply IH.
Qed.

(** The trace of the loop ends in the state the loop returns. *)
Lemma load_items_trace_last items : forall st,
  last (load_items_trace R items st) st = fst (load_items R items st).
Proof.
  induction items as [|item rest IH]; intros st; simpl; auto.
  rewrite last_app_default, load_item_trace_last.
  destruct (load_item R item st) as [st' [|e]]; simpl; auto.
Qed.

Lemma load_data_names_resolve d st :
  names_resolve st -> names_resolve (load_data R d st).
Proof.
  intros H. unfold load_data. destruct (data_dir_exists d); auto.
  assert (names_resolve (fst (load_catalog R (matrix_path d) st))) as H1.
  { unfold load_catalog. destruct (matrix_path d); simpl; auto.
    apply load_items_names_resolve, H. }
  unfold load_recommendations.
  destruct (precomputed_hybrid_json d); auto.
Qed.

Lemma no_None_key_initial : no_None_key initial_state.
Proof. intros k []. Qed.

Lemma load_item_no_None_key item st :
  no_None_key st -> no_None_key (fst (load_item R item st)).
Proof.
  intros H. destruct item; simpl; auto.
  destruct (String.eqb_spec (item_pid R d) "None") as [Heq|Hne]; simpl; auto.
  assert (no_None_key (set_product (item_pid R d) d st)) as H1.
  { intros k Hk. simpl in Hk. apply dict_keys_set in Hk.
    destruct Hk as [->|Hk]; auto. }
  destruct (item_name d); simpl; auto.
Qed.

Lemma load_items_no_None_key items : forall st,
  no_None_key st -> no_None_key (fst (load_items R items st)).
Proof.
  induction items as [|item rest IH]; intros st H; simpl; auto.
  pose proof (load_item_no_None_key item st H) as H1.
  destruct (load_item R item st) as [st' [|e]]; simpl in *; auto.
Qed.

Lemma load_data_no_None_key d st :
  no_None_key st -> no_None_key (load_data R d st).
Proof.
  intros H. unfold load_data. destruct (data_dir_exists d); auto.
  assert (no_None_key (fst (load_catalog R (matrix_path d) st))) as H1.
  { unfold load_catalog. destruct (matrix_path d); simpl; auto.
    apply load_items_no_None_key, H. }
  unfold load_recommendations.
  destruct (precomputed_hybrid_json d); auto.
Qed.

End LoadFacts.

(** ** Identifiers in [load_data] *)

Section Identifiers.
Variable R : runtime.

Lemma item_pid_numeric item v :
  dict_get item "product_id_numeric" = Some v -> item_pid R item = str R v.
Proof. intros H. unfold item_pid, dict_get_default. now rewrite H. Qed.

Lemma item_pid_fallback item v :
  dict_get item "product_id_numeric" = None ->
  dict_get item "product_id" = Some v ->
  item_pid R item = str R v.
Proof. intros H1 H2. unfold item_pid, dict_get_default. now rewrite H1, H2. Qed.

Lemma item_pid_absent item :
  dict_get item "product_id_numeric" = None ->
  dict_get item "product_id" = None ->
  item_pid R item = "N/A".
Proof. intros H1 H2. unfold item_pid, dict_get_default. now rewrite H1, H2. Qed.

(** The loop drops a record exactly when its identifier is the text
    [None], which is what a [null] field gives. *)
Lemma load_item_drops_None d st :
  item_pid R d = "None" -> load_item R (JDict d) st = (st, Completed).
Proof. intros H. simpl. now rewrite H. Qed.

Lemma item_pid_null_numeric item :
  dict_get item "product_id_numeric" = Some JNull -> item_pid R item = "None".
Proof. intros H. now rewrite (item_pid_numeric _ _ H). Qed.

Lemma load_items_skips_str s rest st :
  load_items R (JStr s :: rest) st = load_items R rest st.
Proof. reflexivity. Qed.

(** A catalog file that does not parse changes neither map. *)
Lemma load_data_malformed_catalog d st :
  matrix_path d = Malformed ->
  PRODUCTS_MAP (load_data R d st) = PRODUCTS_MAP st
  /\ PRODUCT_NAMES_MAP (load_data R d st) = PRODUCT_NAMES_MAP st.
Proof.
  intros H. unfold load_data, load_catalog, load_recommendations.
  rewrite H. destruct (data_dir_exists d); auto.
  destruct (precomputed_hybrid_json d); auto.
Qed.

End Identifiers.

(** C1, as the code has it: a record with neither [product_id_numeric] nor
    [product_id] gets the fallback text [N/A] as its identifier, and since
    the loop only drops the identifier [None], that record is kept: it is
    filed under [N/A] in the product map and in the name map. *)
Theorem load_data_keeps_record_without_identifier (R : runtime) :
  let item := [("product_name", JStr "Widget")] in
  let st := load_data R (catalog_only (JList [JDict item])) initial_state in
  item_pid R item = "N/A"
  /\ PRODUCTS_MAP st = [("N/A", item)]
  /\ PRODUCT_NAMES_MAP st = [("Widget", "N/A")].
Proof. repeat split. Qed.

(** C2, as the code has it: an entry of the catalog list that is neither a
    string nor a record stops the loop with an [AttributeError]; the
    records before it stay indexed and the records after it are never
    read. *)
Theorem load_data_stops_at_non_record_entry (R : runtime) :
  let first := [("product_id_numeric", JInt 1); ("product_name", JStr "A")] in
  let second := [("product_id_numeric", JInt 2); ("product_name", JStr "B")] in
  let files := catalog_only (JList [JDict first; JInt 42; JDict second]) in
  PRODUCTS_MAP (load_data R files initial_state) = [("1", first)]
  /\ PRODUCT_NAMES_MAP (load_data R files initial_state) = [("A", "1")]
  /\ catalog_outcome R files initial_state = Failed AttributeError.
Proof. repeat split. Qed.

(** C8: if every identifier of the name map is a key of the product map
    when [load_data] starts, this holds in every state the globals pass
    through while it runs (after each assignment of the loop), the last of
    which is the state [load_data] returns. *)
Theorem load_data_names_resolve_throughout (R : runtime) (d : disk) (st : state) :
  names_resolve st ->
  Forall names_resolve (load_data_trace R d st)
  /\ last (load_data_trace R d st) st = load_data R d st.
Proof.
  intros H. unfold load_data_trace.
  destruct (data_dir_exists d) eqn:Hdir.
  - split.
    + constructor; [exact H|]. apply Forall_app. split.
      * destruct (matrix_path d); auto.
        apply load_items_names_resolve, H.
      * constructor; [|constructor].
        apply load_data_names_resolve, H.
    + rewrite last_cons_default, last_app_default. reflexivity.
  - split; [repeat constructor; exact H|].
    unfold load_data. now rewrite Hdir.
Qed.

Lemma load_data_names_resolve_throughout_witness :
  names_resolve initial_state
  /\ Forall names_resolve
       (load_data_trace ExampleRuntime.py Scenarios.files initial_state)
  /\ last (load_data_trace ExampleRuntime.py Scenarios.files initial_state)
       initial_state
     = Scenarios.loaded.
Proof.
  split; [exact names_resolve_initial|].
  exact (load_data_names_resolve_throughout ExampleRuntime.py Scenarios.files
           initial_state names_resolve_initial).
Defined.

(** C10: for a record without the field [product_id_numeric], the
    identifier [normalize_product] gives is the text [None]; and when the
    record is in the product map after [load_data] (for instance under its
    [product_id]), that identifier is not the key the record is filed
    under. *)
Theorem normalized_id_ignores_fallback (R : runtime) (p : record) :
  dict_get p "product_id_numeric" = None ->
  p_id (normalize_product R p) = "None"
  /\ forall (d : disk) (st : state) (k : string),
       no_None_key st ->
       In (k, p) (PRODUCTS_MAP (load_data R d st)) ->
       p_id (normalize_product R p) <> k.
Proof.
  intros H.
  assert (p_id (normalize_product R p) = "None") as Hid.
  { simpl. unfold dict_get_default. now rewrite H. }
  split; [exact Hid|].
  intros d st k Hst Hin. rewrite Hid. intros <-.
  apply (load_data_no_None_key R d st Hst "None"); [|reflexivity].
  unfold dict_keys. apply in_map_iff. exists ("None", p). auto.
Qed.

Lemma normalized_id_ignores_fallback_witness :
  dict_get pen "product_id_numeric" = None
  /\ In ("7", pen)
       (PRODUCTS_MAP (load_data ExampleRuntime.py (catalog_only (JList [JDict pen]))
                        initial_state))
  /\ p_id (normalize_product ExampleRuntime.py pen) = "None"
  /\ p_id (normalize_product ExampleRuntime.py pen) <> "7".
Proof.
  destruct (normalized_id_ignores_fallback ExampleRuntime.py pen eq_refl)
    as [Hid Hkey].
  split; [reflexivity|]. split; [left; reflexivity|]. split; [exact Hid|].
  apply (Hkey (catalog_only (JList [JDict pen])) initial_state "7"
           no_None_key_initial).
  left; reflexivity.
Defined.

(** ** The prices of [normalize_product] *)

Section Prices.
Variable R : runtime.

Lemma float_of_int_0 : float_of_int 0 = Ok float_zero.
Proof. reflexivity. Qed.

(** [float] refuses [None], lists and dictionaries whatever the runtime. *)
Lemma py_float_refuses v :
  match v with JNull | JList _ | JDict _ => True | _ => False end ->
  py_float R v = Raise TypeError.
Proof. destruct v; simpl; intros H; try reflexivity; contradiction. Qed.

Lemma price_of_default p :
  field_numeric R p "actual_price" = false -> price_of R p = float_zero.
Proof.
  unfold field_numeric, price_of, dict_get_default.
  destruct (dict_get p "actual_price") as [v|]; [|reflexivity].
  destruct (py_float R v); [discriminate|reflexivity].
Qed.

Lemma disc_of_default p price :
  field_numeric R p "discounted_price" = false -> disc_of R p price = price.
Proof.
  unfold field_numeric, disc_of, dict_get_default.
  destruct (dict_get p "discounted_price") as [v|]; [|reflexivity].
  destruct (py_float R v); [discriminate|reflexivity].
Qed.

Lemma disc_of_field p price v f :
  dict_get p "discounted_price" = Some v -> py_float R v = Ok f ->
  disc_of R p price = f.
Proof.
  intros Hv Hf. unfold disc_of, dict_get_default. now rewrite Hv, Hf.
Qed.

End Prices.

(** C3 as amended: [normalize_product] is a total function, and for a
    record whose [actual_price] is absent or refused by [float] the price
    is [0.0]; the discounted price is that price when [discounted_price]
    is absent or refused too, and is the converted [discounted_price]
    otherwise. *)
Theorem normalize_product_price_defaults (R : runtime) (p : record) :
  field_numeric R p "actual_price" = false ->
  prices (normalize_product R p) = float_zero
  /\ (field_numeric R p "discounted_price" = false ->
      discounted_price (normalize_product R p) = prices (normalize_product R p))
  /\ (forall v f, dict_get p "discounted_price" = Some v ->
                  py_float R v = Ok f ->
                  discounted_price (normalize_product R p) = f).
Proof.
  intros H. simpl. split; [|split].
  - now apply price_of_default.
  - apply disc_of_default.
  - intros v f. apply disc_of_field.
Qed.

Lemma normalize_product_price_defaults_witness :
  field_numeric ExampleRuntime.py unpriced "actual_price" = false
  /\ prices (normalize_product ExampleRuntime.py unpriced) = float_zero
  /\ discounted_price (normalize_product ExampleRuntime.py unpriced) = float_zero.
Proof.
  destruct (normalize_product_price_defaults ExampleRuntime.py unpriced eq_refl)
    as [Hprice [Hdisc _]].
  split; [reflexivity|]. split; [exact Hprice|].
  rewrite (Hdisc eq_refl). exact Hprice.
Defined.

(** C3 as first stated fails: with no [actual_price] but a numeric
    [discounted_price] of 50, the price is [0.0] and the discounted price
    is [50.0]. *)
Lemma discounted_price_not_price :
  field_numeric ExampleRuntime.py discounted_only "actual_price" = false
  /\ prices (normalize_product ExampleRuntime.py discounted_only) = float_zero
  /\ py_float ExampleRuntime.py (JInt 50)
     = Ok (discounted_price (normalize_product ExampleRuntime.py discounted_only))
  /\ discounted_price (normalize_product ExampleRuntime.py discounted_only)
     <> prices (normalize_product ExampleRuntime.py discounted_only).
Proof. repeat split. discriminate. Qed.

(** ** Blank queries *)

Section Blank.

Lemma is_space_lower_char c : is_space c = true -> lower_char c = c.
Proof.
  destruct c as [[] [] [] [] [] [] [] []]; try discriminate; reflexivity.
Qed.

Lemma lower_whitespace s : whitespace_only s -> lower s = s.
Proof.
  unfold whitespace_only. induction s as [|c s IH]; simpl; [reflexivity|].
  intros H. inversion H; subst.
  rewrite is_space_lower_char, IH; auto.
Qed.

Lemma lstrip_whitespace s : whitespace_only s -> lstrip s = EmptyString.
Proof.
  unfold whitespace_only. induction s as [|c s IH]; simpl; [reflexivity|].
  intros H. inversion H as [|? ? Hc Hs]; subst. rewrite Hc. auto.
Qed.

Lemma query_of_blank q :
  whitespace_only (q_arg q) -> query_of q = EmptyString.
Proof.
  intros H. unfold query_of, strip.
  now rewrite (lower_whitespace _ H), (lstrip_whitespace _ H).
Qed.

End Blank.

(** C7: when the query is absent, empty or made of whitespace only,
    [search_products] answers the empty list whatever the catalog and the
    recommendation table hold: neither is read. *)
Theorem search_products_blank_query (R : runtime) (q : option string) (st : state) :
  whitespace_only (q_arg q) -> search_products R q st = Ok [].
Proof.
  intros H. unfold search_products, search_records.
  now rewrite (query_of_blank q H).
Qed.

Lemma search_products_blank_query_witness :
  whitespace_only (q_arg (Some blanks))
  /\ search_products ExampleRuntime.py (Some blanks) Scenarios.loaded = Ok [].
Proof.
  assert (whitespace_only (q_arg (Some blanks))) as H.
  { repeat constructor. }
  split; [exact H|].
  exact (search_products_blank_query ExampleRuntime.py (Some blanks)
           Scenarios.loaded H).
Defined.

(** ** Well-formed catalogs and recommendation tables *)

Section SearchTotal.
Variable R : runtime.

Lemma name_lower_ok p : name_is_str p -> exists n, name_lower p = Ok n.
Proof.
  unfold name_is_str, name_lower.
  destruct (dict_get_default p "product_name" (JStr "")); try contradiction.
  eauto.
Qed.

Lemma find_anchor_ok query items :
  Forall name_is_str (dict_values items) ->
  exists o, find_anchor query items = Ok o.
Proof.
  induction items as [|[pid p] rest IH]; simpl; intros H; [eauto|].
  inversion H as [|? ? Hp Hrest]; subst.
  destruct (name_lower_ok p Hp) as [n ->]. simpl.
  destruct (contains query n); eauto.
Qed.

Lemma scan_ok query ps :
  Forall name_is_str ps -> exists l, scan R query ps = Ok l.
Proof.
  induction ps as [|p rest IH]; simpl; intros H; [eauto|].
  inversion H as [|? ? Hp Hrest]; subst.
  unfold score. destruct (name_lower_ok p Hp) as [n ->]. simpl.
  destruct (IH Hrest) as [l ->]. simpl. eauto.
Qed.

Lemma resolve_rec_ok st rec :
  names_resolve st -> stub_ok rec -> exists o, resolve_rec st rec = Ok o.
Proof.
  intros Hst. unfold stub_ok, resolve_rec.
  destruct rec; try contradiction.
  destruct (dict_get_default d "product_name" JNull); try contradiction; eauto.
  intros _. destruct (dict_get (PRODUCT_NAMES_MAP st) s) as [pid|] eqn:Hn; eauto.
  assert (In pid (dict_keys (PRODUCTS_MAP st))) as Hk.
  { apply Hst. apply dict_get_In in Hn.
    unfold dict_values. apply in_map_iff. exists (s, pid). auto. }
  apply dict_mem_keys in Hk. unfold dict_mem in Hk. unfold dict_index.
  destruct (dict_get (PRODUCTS_MAP st) pid); [simpl; eauto | discriminate].
Qed.

Lemma resolve_all_ok st recs :
  names_resolve st -> Forall stub_ok recs ->
  exists l, resolve_all st recs = Ok l.
Proof.
  intros Hst. induction recs as [|rec rest IH]; simpl; intros H; [eauto|].
  inversion H as [|? ? Hrec Hrest]; subst.
  destruct (resolve_rec_ok st rec Hst Hrec) as [o ->]. simpl.
  destruct (IH Hrest) as [l ->]. simpl. eauto.
Qed.

Lemma hybrid_results_ok st matched_id :
  table_ok (RECOMMENDATIONS st) -> names_resolve st ->
  exists l, hybrid_results st matched_id = Ok l.
Proof.
  intros Ht Hst. unfold hybrid_results.
  destruct matched_id as [pid|]; [|eauto].
  destruct (truthy pid); [|eauto].
  unfold table_ok in Ht. destruct (RECOMMENDATIONS st); try contradiction.
  simpl. unfold dict_mem, dict_index.
  destruct (dict_get d pid) as [v|] eqn:Hv; [|eauto]. simpl.
  assert (stubs_ok v) as Hs.
  { rewrite Forall_forall in Ht. apply Ht.
    apply dict_get_In in Hv. unfold dict_values.
    apply in_map_iff. exists (pid, v). auto. }
  unfold stubs_ok in Hs. destruct v; try contradiction. simpl.
  apply resolve_all_ok; assumption.
Qed.

(** On a well-formed state no tier raises. *)
Lemma search_records_ok q st :
  well_formed st -> exists l, search_records R q st = Ok l.
Proof.
  intros [Hn [Ht Hr]]. unfold search_records.
  destruct (truthy (query_of q)); [|eauto].
  destruct (brand_matches R (query_of q) st); [|eauto].
  destruct (find_anchor_ok (query_of q) (PRODUCTS_MAP st) Hn) as [o ->]. simpl.
  destruct (hybrid_results_ok st o Ht Hr) as [l ->]. simpl.
  destruct l; [|eauto].
  unfold fallback.
  destruct (scan_ok (query_of q) _ Hn) as [scored ->]. simpl. eauto.
Qed.

Opaque firstn.

(** Whatever tier answers, it answers with at most twenty records. *)
Lemma search_records_length q st l :
  search_records R q st = Ok l -> List.length l <= 20.
Proof.
  unfold search_records.
  destruct (truthy (query_of q)); [|intros [= <-]; simpl; lia].
  destruct (brand_matches R (query_of q) st) as [|b bs].
  - destruct (find_anchor (query_of q) (PRODUCTS_MAP st)) as [o|e];
      cbn [bind]; [|discriminate].
    destruct (hybrid_results st o) as [[|r rs]|e]; cbn [bind]; [| |discriminate].
    + unfold fallback.
      destruct (scan R (query_of q) (dict_values (PRODUCTS_MAP st)));
        cbn [bind]; [|discriminate].
      intros [= <-]. rewrite length_map. apply firstn_le_length.
    + intros [= <-]. apply firstn_le_length.
  - intros [= <-]. apply firstn_le_length.
Qed.

Transparent firstn.

End SearchTotal.

(** C4: for a query that is not empty once lowered and stripped, every
    list [search_products] returns has at most 20 elements, whichever
    tier produced it; and on a well-formed catalog and recommendation
    table it does return a list. *)
Theorem search_products_at_most_20 (R : runtime) (q : option string) (st : state) :
  query_of q <> EmptyString ->
  (forall l, search_products R q st = Ok l -> List.length l <= 20)
  /\ (well_formed st ->
      exists l, search_products R q st = Ok l /\ List.length l <= 20).
Proof.
  intros _.
  assert (forall l, search_products R q st = Ok l -> List.length l <= 20) as Hlen.
  { intros l. unfold search_products.
    destruct (search_records R q st) as [recs|e] eqn:Hrecs; simpl; [|discriminate].
    intros [= <-]. rewrite length_map.
    exact (search_records_length R q st recs Hrecs). }
  split; [exact Hlen|].
  intros Hwf. destruct (search_records_ok R q st Hwf) as [recs Hrecs].
  exists (map (normalize_product R) recs).
  assert (search_products R q st = Ok (map (normalize_product R) recs)) as Hs.
  { unfold search_products. now rewrite Hrecs. }
  split; [exact Hs | exact (Hlen _ Hs)].
Qed.

Lemma scenario_well_formed : well_formed Scenarios.loaded.
Proof.
  split; [|split].
  - repeat constructor.
  - repeat constructor.
  - apply load_data_names_resolve, names_resolve_initial.
Qed.

Lemma search_products_at_most_20_witness :
  query_of (Some "Widget") <> EmptyString
  /\ (forall l, search_products ExampleRuntime.py (Some "Widget") Scenarios.loaded = Ok l ->
                List.length l <= 20)
  /\ exists l, search_products ExampleRuntime.py (Some "Widget") Scenarios.loaded = Ok l
               /\ List.length l <= 20.
Proof.
  assert (query_of (Some "Widget") <> EmptyString) as Hq by discriminate.
  destruct (search_products_at_most_20 ExampleRuntime.py (Some "Widget")
              Scenarios.loaded Hq) as [Hlen Hret].
  split; [exact Hq|]. split; [exact Hlen|].
  exact (Hret scenario_well_formed).
Defined.

(** ** Tier 1: the exact brand match *)

Section BrandTier.
Variable R : runtime.

Lemma truthy_nonempty s : s <> EmptyString -> truthy s = true.
Proof. destruct s; [contradiction|reflexivity]. Qed.

Lemma brand_matches_In query st p :
  In p (brand_matches R query st)
  <-> In p (dict_values (PRODUCTS_MAP st)) /\ brand_lower R p = query.
Proof.
  unfold brand_matches, brand_match. rewrite filter_In.
  destruct (String.eqb_spec query (brand_lower R p)); intuition congruence.
Qed.


End BrandTier.






(** ** The stable sort *)

Section StableSortFacts.
Context {A : Type}.
Implicit Types (x : nat * A) (l : list (nat * A)).

Lemma insert_desc_perm x l : Permutation (insert_desc x l) (x :: l).
Proof.
  induction l as [|y r IH]; simpl; [reflexivity|].
  destruct (fst x <? fst y); [|reflexivity].
  rewrite IH. apply perm_swap.
Qed.

Lemma sort_desc_perm l : Permutation (sort_desc l) l.
Proof.
  induction l as [|x r IH]; simpl; [reflexivity|].
  rewrite insert_desc_perm. now constructor.
Qed.

Lemma insert_desc_sorted x l :
  StronglySorted desc l -> StronglySorted desc (insert_desc x l).
Proof.
  induction l as [|y r IH]; simpl; intros H.
  - repeat constructor.
  - inversion H as [|? ? Hr Hy]; subst.
    destruct (Nat.ltb_spec (fst x) (fst y)) as [Hlt|Hge].
    + constructor; [auto|].
      rewrite insert_desc_perm.
      constructor; [unfold desc; lia | exact Hy].
    + constructor; [exact H|].
      constructor; [exact Hge|].
      apply (Forall_impl (P := desc y)); [|exact Hy].
      unfold desc. intros z Hz. lia.
Qed.

Lemma sort_desc_sorted l : StronglySorted desc (sort_desc l).
Proof.
  induction l as [|x r IH]; simpl; [constructor|].
  now apply insert_desc_sorted.
Qed.

(** Stability: the elements of one key keep their order. *)
Lemma insert_desc_stable k x l :
  filter (fun y => fst y =? k) (insert_desc x l)
  = filter (fun y => fst y =? k) (x :: l).
Proof.
  induction l as [|y r IH]; [reflexivity|].
  cbn [insert_desc].
  destruct (Nat.ltb_spec (fst x) (fst y)) as [Hlt|Hge]; [|reflexivity].
  cbn [filter] in *. rewrite IH.
  destruct (Nat.eqb_spec (fst x) k), (Nat.eqb_spec (fst y) k);
    try reflexivity; lia.
Qed.

Lemma sort_desc_stable k l :
  filter (fun y => fst y =? k) (sort_desc l) = filter (fun y => fst y =? k) l.
Proof.
  induction l as [|x r IH]; [reflexivity|].
  cbn [sort_desc]. rewrite insert_desc_stable. cbn [filter]. now rewrite IH.
Qed.

(** An element goes past the elements of larger key, and no further. *)
Lemma insert_desc_past x l1 l2 :
  Forall (fun y => fst x < fst y) l1 ->
  insert_desc x (l1 ++ l2) = l1 ++ insert_desc x l2.
Proof.
  induction l1 as [|y r IH]; intros H; [reflexivity|].
  inversion H as [|? ? Hy Hr]; subst. simpl.
  destruct (Nat.ltb_spec (fst x) (fst y)); [|lia].
  now rewrite IH.
Qed.

Lemma insert_desc_front x l :
  Forall (fun y => fst y <= fst x) l -> insert_desc x l = x :: l.
Proof.
  destruct l as [|y r]; intros H; [reflexivity|].
  inversion H; subst. simpl.
  destruct (Nat.ltb_spec (fst x) (fst y)); [lia|reflexivity].
Qed.

Lemma with_key_key k l : Forall (fun y => fst y = k) (with_key k l).
Proof.
  apply Forall_forall. intros y Hy. apply filter_In in Hy.
  now apply Nat.eqb_eq.
Qed.

(** With the three scores of tier 3, the sorted list is the elements of
    score 15, then those of score 10, then those of score 5, each group
    in the order of the input. *)
Lemma sort_desc_three l :
  Forall (fun y => fst y = 15 \/ fst y = 10 \/ fst y = 5) l ->
  sort_desc l = with_key 15 l ++ with_key 10 l ++ with_key 5 l.
Proof.
  induction l as [|x r IH]; intros H; [reflexivity|].
  inversion H as [|? ? Hx Hr]; subst.
  cbn [sort_desc]. rewrite (IH Hr).
  pose proof (with_key_key 15 r) as H15.
  pose proof (with_key_key 10 r) as H10.
  pose proof (with_key_key 5 r) as H5.
  unfold with_key at 4 5 6. cbn [filter]. fold (with_key 15 r).
  fold (with_key 10 r). fold (with_key 5 r).
  destruct Hx as [Hx|[Hx|Hx]]; rewrite Hx; cbn [Nat.eqb].
  - apply insert_desc_front. rewrite !Forall_app. repeat split.
    + eapply Forall_impl; [|exact H15]. simpl. intros; lia.
    + eapply Forall_impl; [|exact H10]. simpl. intros; lia.
    + eapply Forall_impl; [|exact H5]. simpl. intros; lia.
  - rewrite insert_desc_past.
    + f_equal. cbn [app]. apply insert_desc_front. rewrite Forall_app. split.
      * eapply Forall_impl; [|exact H10]. simpl. intros; lia.
      * eapply Forall_impl; [|exact H5]. simpl. intros; lia.
    + eapply Forall_impl; [|exact H15]. simpl. intros; lia.
  - rewrite insert_desc_past.
    + f_equal. rewrite insert_desc_past.
      * f_equal. apply insert_desc_front.
        eapply Forall_impl; [|exact H5]. simpl. intros; lia.
      * eapply Forall_impl; [|exact H10]. simpl. intros; lia.
    + eapply Forall_impl; [|exact H15]. simpl. intros; lia.
Qed.

End StableSortFacts.

(** ** Tier 3: the scored fallback *)

Section Fallback.
Variable R : runtime.
Variable query : string.

Lemma score_ok p :
  name_is_str p -> score R query p = Ok (score_value R query p).
Proof.
  unfold name_is_str, score, score_value, name_has, name_lower.
  destruct (dict_get_default p "product_name" (JStr "")); try contradiction.
  reflexivity.
Qed.

Lemma scan_spec ps :
  Forall name_is_str ps ->
  scan R query ps = Ok (filter positive_score (map (tag R query) ps)).
Proof.
  induction ps as [|p rest IH]; intros H; [reflexivity|].
  inversion H as [|? ? Hp Hrest]; subst.
  cbn [scan map filter]. rewrite (score_ok p Hp), (IH Hrest).
  reflexivity.
Qed.

Lemma score_value_cases p :
  score_value R query p = 15 \/ score_value R query p = 10
  \/ score_value R query p = 5 \/ score_value R query p = 0.
Proof.
  unfold score_value. destruct (name_has query p), (brand_has R query p); auto.
Qed.

Lemma scored_keys ps :
  Forall (fun sp : nat * record => fst sp = 15 \/ fst sp = 10 \/ fst sp = 5)
    (filter positive_score (map (tag R query) ps)).
Proof.
  apply Forall_forall. intros [s p] Hin. apply filter_In in Hin.
  destruct Hin as [Hin Hpos]. apply in_map_iff in Hin.
  destruct Hin as [p' [[= <- <-] _]].
  unfold positive_score in Hpos. simpl in *.
  destruct (score_value_cases p') as [H|[H|[H|H]]]; auto.
  rewrite H in Hpos. discriminate.
Qed.

Lemma with_key_scored k ps :
  0 < k ->
  map snd (with_key k (filter positive_score (map (tag R query) ps)))
  = with_score R query k ps.
Proof.
  intros Hk. unfold with_key, with_score.
  induction ps as [|p rest IH]; [reflexivity|].
  cbn [map filter]. unfold positive_score at 1. cbn [tag fst].
  destruct (Nat.ltb_spec 0 (score_value R query p)) as [Hpos|Hzero].
  - cbn [filter tag fst].
    destruct (score_value R query p =? k); cbn [map snd]; now rewrite IH.
  - destruct (Nat.eqb_spec (score_value R query p) k); [lia|exact IH].
Qed.

(** Tier 3 on records whose names are strings: the records of score 15,
    then 10, then 5, cut to the first twenty. *)
Lemma fallback_spec st :
  names_are_strings st ->
  fallback R query st
  = Ok (firstn 20 (with_score R query 15 (dict_values (PRODUCTS_MAP st))
                   ++ with_score R query 10 (dict_values (PRODUCTS_MAP st))
                   ++ with_score R query 5 (dict_values (PRODUCTS_MAP st)))).
Proof.
  intros H. unfold fallback. rewrite (scan_spec _ H). cbn [bind].
  rewrite <- firstn_map, (sort_desc_three _ (scored_keys _)), !map_app.
  rewrite !with_key_scored by lia. reflexivity.
Qed.

Lemma name_lower_str p n : name_lower p = Ok n -> name_is_str p.
Proof.
  unfold name_lower, name_is_str.
  destruct (dict_get_default p "product_name" (JStr "")); try discriminate.
  trivial.
Qed.

(** The scan only ends on records whose names are strings. *)
Lemma scan_names ps : forall l,
  scan R query ps = Ok l -> Forall name_is_str ps.
Proof.
  induction ps as [|p rest IH]; intros l H; [constructor|].
  cbn [scan] in H. unfold score in H.
  destruct (name_lower p) as [n|e] eqn:Hn; cbn [bind] in H; [|discriminate].
  destruct (scan R query rest) as [l'|e]; cbn [bind] in H; [|discriminate].
  constructor; [exact (name_lower_str p n Hn) | exact (IH l' eq_refl)].
Qed.

Lemma fallback_names st l :
  fallback R query st = Ok l -> names_are_strings st.
Proof.
  unfold fallback, names_are_strings.
  destruct (scan R query (dict_values (PRODUCTS_MAP st))) as [scored|e] eqn:Hs;
    cbn [bind]; [|discriminate].
  intros _. exact (scan_names _ _ Hs).
Qed.

End Fallback.

(** C6: in tier 3 a record scores 10 for the query in its lowered name
    plus 5 for the query in its lowered brand, so 15 with both; whenever
    tier 3 answers, and it does on a catalog whose names are strings, the
    answer is the records of score 15, then those of score 10, then those
    of score 5, each group in the order of the catalog scan, cut to the
    first 20: a record with both comes before every record with one, and
    a record of score 0 is left out. *)
Theorem fallback_ranking (R : runtime) (query : string) (st : state) :
  let ps := dict_values (PRODUCTS_MAP st) in
  let ranking :=
    with_score R query 15 ps ++ with_score R query 10 ps ++ with_score R query 5 ps in
  (names_are_strings st -> fallback R query st = Ok (firstn 20 ranking))
  /\ (forall l, fallback R query st = Ok l -> l = firstn 20 ranking)
  /\ (forall p, name_is_str p -> score R query p = Ok (score_value R query p))
  /\ (forall p,
        (name_has query p = true -> brand_has R query p = true ->
         score_value R query p = 15)
        /\ (name_has query p = true -> brand_has R query p = false ->
            score_value R query p = 10)
        /\ (name_has query p = false -> brand_has R query p = true ->
            score_value R query p = 5)
        /\ (name_has query p = false -> brand_has R query p = false ->
            score_value R query p = 0)).
Proof.
  intros ps ranking. split; [|split; [|split]].
  - exact (fallback_spec R query st).
  - intros l Hl.
    pose proof (fallback_names R query st l Hl) as Hn.
    rewrite (fallback_spec R query st Hn) in Hl. now injection Hl as <-.
  - exact (score_ok R query).
  - intros p. unfold score_value. repeat split; intros -> ->; reflexivity.
Qed.

Lemma fallback_ranking_witness :
  names_are_strings Lamps.loaded
  /\ fallback ExampleRuntime.py "lamp" Lamps.loaded
     = Ok [Lamps.lamp; Lamps.sun_lamp; Lamps.floor_lamp; Lamps.desk]
  /\ search_records ExampleRuntime.py (Some "lamp") Lamps.loaded
     = fallback ExampleRuntime.py "lamp" Lamps.loaded.
Proof.
  assert (names_are_strings Lamps.loaded) as H by (repeat constructor).
  destruct (fallback_ranking ExampleRuntime.py "lamp" Lamps.loaded) as [Hf _].
  split; [exact H|]. split; [rewrite (Hf H); reflexivity | reflexivity].
Defined.

(** * Further properties of the code *)

(** ** Strings: [lower] and [strip] *)

Section StringFacts.

Lemma lower_char_idem c : lower_char (lower_char c) = lower_char c.
Proof. destruct c as [[] [] [] [] [] [] [] []]; reflexivity. Qed.

Lemma is_space_lower c : is_space (lower_char c) = is_space c.
Proof. destruct c as [[] [] [] [] [] [] [] []]; reflexivity. Qed.

Lemma lower_lower s : lower (lower s) = lower s.
Proof.
  induction s as [|c s IH]; simpl; [reflexivity|].
  now rewrite lower_char_idem, IH.
Qed.

Lemma lstrip_lower s : lstrip (lower s) = lower (lstrip s).
Proof.
  induction s as [|c s IH]; simpl; [reflexivity|].
  rewrite is_space_lower. destruct (is_space c); [exact IH|reflexivity].
Qed.

Lemma rstrip_lower s : rstrip (lower s) = lower (rstrip s).
Proof.
  induction s as [|c s IH]; simpl; [reflexivity|].
  rewrite IH, is_space_lower.
  destruct (rstrip s); simpl; [destruct (is_space c)|]; reflexivity.
Qed.

Lemma strip_lower s : strip (lower s) = lower (strip s).
Proof. unfold strip. now rewrite lstrip_lower, rstrip_lower. Qed.

Lemma rstrip_rstrip s : rstrip (rstrip s) = rstrip s.
Proof.
  induction s as [|c s IH]; simpl; [reflexivity|].
  destruct (rstrip s) as [|a r] eqn:Hr.
  - destruct (is_space c) eqn:Hc; simpl; [reflexivity|]. now rewrite Hc.
  - simpl. simpl in IH. now rewrite IH.
Qed.

(** A string that does not start with whitespace still does not after
    [rstrip], so [lstrip] leaves it alone. *)
Lemma lstrip_rstrip_lstrip s : lstrip (rstrip (lstrip s)) = rstrip (lstrip s).
Proof.
  induction s as [|c s IH]; simpl; [reflexivity|].
  destruct (is_space c) eqn:Hc; [exact IH|].
  simpl. destruct (rstrip s); simpl; rewrite ?Hc; simpl; rewrite ?Hc; reflexivity.
Qed.

Lemma strip_strip s : strip (strip s) = strip s.
Proof.
  unfold strip. now rewrite lstrip_rstrip_lstrip, rstrip_rstrip.
Qed.

Lemma prefix_refl s : String.prefix s s = true.
Proof.
  induction s as [|c s IH]; simpl; [reflexivity|].
  destruct (ascii_dec c c); [exact IH|contradiction].
Qed.

Lemma contains_refl s : contains s s = true.
Proof.
  destruct s as [|a s]; [reflexivity|].
  cbn [contains]. now rewrite prefix_refl.
Qed.

End StringFacts.

(** ** Dictionaries: lookup after update, order of the keys *)

Section MoreDictFacts.
Context {V : Type}.
Implicit Types (d : pydict V) (k : string) (v : V).

Lemma dict_get_set d k v k' :
  dict_get (dict_set d k v) k' = if String.eqb k k' then Some v else dict_get d k'.
Proof.
  induction d as [|[k0 v0] d IH]; simpl.
  - reflexivity.
  - destruct (String.eqb_spec k0 k) as [->|Hne]; simpl.
    + destruct (String.eqb k k'); reflexivity.
    + rewrite IH. destruct (String.eqb_spec k0 k') as [->|Hne'].
      * destruct (String.eqb_spec k k'); [congruence|reflexivity].
      * reflexivity.
Qed.

Lemma dict_mem_cons k0 v0 d k :
  dict_mem ((k0, v0) :: d) k = if String.eqb k0 k then true else dict_mem d k.
Proof. unfold dict_mem. simpl. destruct (String.eqb k0 k); reflexivity. Qed.

(** An update keeps the keys in place and puts a new key last. *)
Lemma dict_keys_set_app d k v :
  dict_keys (dict_set d k v) = dict_keys d ++ (if dict_mem d k then [] else [k]).
Proof.
  induction d as [|[k0 v0] d IH]; [reflexivity|].
  rewrite dict_mem_cons. simpl.
  destruct (String.eqb_spec k0 k) as [->|Hne]; simpl.
  - now rewrite app_nil_r.
  - now rewrite IH.
Qed.

Lemma dict_get_values d k v : dict_get d k = Some v -> In v (dict_values d).
Proof.
  intros H. apply dict_get_In in H. unfold dict_values.
  apply in_map_iff. exists (k, v). auto.
Qed.

End MoreDictFacts.

(** ** [load_data]: what a load keeps *)

Section LoadInvariant.
Variable R : runtime.
Variable P : state -> Prop.
Hypothesis P_set_product :
  forall d st, P st -> item_pid R d <> "None" -> P (set_product (item_pid R d) d st).
Hypothesis P_set_name :
  forall d n st, P st -> item_name d = Ok n -> P (set_name n (item_pid R d) st).
Hypothesis P_set_recommendations :
  forall t st, P st -> P (set_recommendations t st).

Lemma load_item_invariant item st : P st -> P (fst (load_item R item st)).
Proof.
  intros H. destruct item; simpl; auto.
  destruct (String.eqb_spec (item_pid R d) "None") as [Heq|Hne]; simpl; auto.
  destruct (item_name d) as [n|e] eqn:Hn; simpl; auto.
Qed.

Lemma load_items_invariant items : forall st,
  P st -> P (fst (load_items R items st)).
Proof.
  induction items as [|item rest IH]; intros st H; simpl; auto.
  pose proof (load_item_invariant item st H) as H1.
  destruct (load_item R item st) as [st' [|e]]; simpl in *; auto.
Qed.

(** A property kept by the three assignments is kept by [load_data]. *)
Lemma load_data_invariant d st : P st -> P (load_data R d st).
Proof.
  intros H. unfold load_data. destruct (data_dir_exists d); auto.
  assert (P (fst (load_catalog R (matrix_path d) st))) as H1.
  { unfold load_catalog. destruct (matrix_path d); simpl; auto.
    now apply load_items_invariant. }
  unfold load_recommendations. destruct (precomputed_hybrid_json d); auto.
Qed.

End LoadInvariant.

Section LoadKeeps.
Variable R : runtime.

Lemma item_name_stripped d n : item_name d = Ok n -> strip n = n.
Proof.
  unfold item_name.
  destruct (dict_get_default d "product_name" (JStr "")); try discriminate.
  intros [= <-]. apply strip_strip.
Qed.

Lemma load_data_filed_by_pid d st :
  filed_by_pid R st -> filed_by_pid R (load_data R d st).
Proof.
  apply (load_data_invariant R (filed_by_pid R)).
  - intros item s H _ k p Hin. simpl in Hin.
    destruct (dict_set_In _ _ _ _ _ Hin) as [[-> ->]|Hold]; auto.
  - intros item n s H _ k p Hin. exact (H k p Hin).
  - intros t s H k p Hin. exact (H k p Hin).
Qed.

Lemma load_data_names_stripped_inv d st :
  names_stripped st -> names_stripped (load_data R d st).
Proof.
  apply (load_data_invariant R names_stripped).
  - intros item s H _ n Hin. exact (H n Hin).
  - intros item n s H Hn m Hin. simpl in Hin. apply dict_keys_set in Hin.
    destruct Hin as [->|Hold]; [exact (item_name_stripped item n Hn) | auto].
  - intros t s H n Hin. exact (H n Hin).
Qed.

Lemma load_data_extends d st0 : extends st0 (load_data R d st0).
Proof.
  apply (load_data_invariant R (extends st0)).
  - intros item s [[m1 H1] H2] _. split; [|exact H2]. simpl.
    rewrite dict_keys_set_app, H1, <- app_assoc. eauto.
  - intros item n s [H1 [m2 H2]] _. split; [exact H1|]. simpl.
    rewrite dict_keys_set_app, H2, <- app_assoc. eauto.
  - intros t s H. exact H.
  - split; exists []; now rewrite app_nil_r.
Qed.

End LoadKeeps.

Section LoadLookup.
Variable R : runtime.

Lemma load_items_app a : forall b st,
  load_items R (a ++ b) st
  = match load_items R a st with
    | (st', Completed) => load_items R b st'
    | (st', Failed e) => (st', Failed e)
    end.
Proof.
  induction a as [|item a IH]; intros b st; simpl.
  - reflexivity.
  - destruct (load_item R item st) as [st' [|e]]; [apply IH|reflexivity].
Qed.

(** The records that follow do not touch an identifier none of them has. *)
Lemma load_items_get_other pid items : forall st,
  (forall d, In (JDict d) items -> item_pid R d <> pid) ->
  dict_get (PRODUCTS_MAP (fst (load_items R items st))) pid
  = dict_get (PRODUCTS_MAP st) pid.
Proof.
  induction items as [|item rest IH]; intros st H; [reflexivity|].
  assert (dict_get (PRODUCTS_MAP (fst (load_item R item st))) pid
          = dict_get (PRODUCTS_MAP st) pid) as Hstep.
  { destruct item; simpl; auto.
    destruct (String.eqb (item_pid R d) "None"); simpl; auto.
    assert (item_pid R d <> pid) as Hne by (apply H; now left).
    destruct (item_name d); simpl; rewrite dict_get_set;
      destruct (String.eqb_spec (item_pid R d) pid); congruence. }
  simpl. destruct (load_item R item st) as [st' [|e]]; simpl in *.
  - rewrite IH; [exact Hstep|]. intros d Hd. apply H. now right.
  - exact Hstep.
Qed.

(** The same for a name no later record has. *)
Lemma load_items_get_other_name n items : forall st,
  (forall d, In (JDict d) items -> item_name d <> Ok n) ->
  dict_get (PRODUCT_NAMES_MAP (fst (load_items R items st))) n
  = dict_get (PRODUCT_NAMES_MAP st) n.
Proof.
  induction items as [|item rest IH]; intros st H; [reflexivity|].
  assert (dict_get (PRODUCT_NAMES_MAP (fst (load_item R item st))) n
          = dict_get (PRODUCT_NAMES_MAP st) n) as Hstep.
  { destruct item; simpl; auto.
    destruct (String.eqb (item_pid R d) "None"); simpl; auto.
    assert (item_name d <> Ok n) as Hne by (apply H; now left).
    destruct (item_name d) as [m|e]; simpl; auto.
    rewrite dict_get_set. destruct (String.eqb_spec m n); congruence. }
  simpl. destruct (load_item R item st) as [st' [|e]]; simpl in *.
  - rewrite IH; [exact Hstep|]. intros d Hd. apply H. now right.
  - exact Hstep.
Qed.

Lemma load_item_files d st :
  item_pid R d <> "None" ->
  dict_get (PRODUCTS_MAP (fst (load_item R (JDict d) st))) (item_pid R d) = Some d
  /\ forall n, item_name d = Ok n ->
       dict_get (PRODUCT_NAMES_MAP (fst (load_item R (JDict d) st))) n
       = Some (item_pid R d).
Proof.
  intros Hne. simpl.
  destruct (String.eqb_spec (item_pid R d) "None") as [Heq|_]; [contradiction|].
  destruct (item_name d) as [m|e]; simpl; split;
    try apply dict_get_set_same; try discriminate.
  intros n [= <-]. apply dict_get_set_same.
Qed.

Lemma load_items_recommendations items : forall st,
  RECOMMENDATIONS (fst (load_items R items st)) = RECOMMENDATIONS st.
Proof.
  intros st.
  apply (load_items_invariant R (fun s => RECOMMENDATIONS s = RECOMMENDATIONS st));
    auto.
Qed.

End LoadLookup.

(** X1: a load only adds to the two maps and keeps the order they had:
    the keys of the product map (and of the name map) before the load are
    the first keys after it, in the same order, whatever the files
    hold. *)
Theorem load_data_keeps_order (R : runtime) (d : disk) (st : state) :
  (exists more, dict_keys (PRODUCTS_MAP (load_data R d st))
                = dict_keys (PRODUCTS_MAP st) ++ more)
  /\ (exists more, dict_keys (PRODUCT_NAMES_MAP (load_data R d st))
                   = dict_keys (PRODUCT_NAMES_MAP st) ++ more).
Proof. exact (load_data_extends R d st). Qed.


Lemma filed_by_pid_initial R : filed_by_pid R initial_state.
Proof. intros k p []. Qed.


(** X3: for a record that has the field [product_id_numeric] and is in
    the product map after a load, the identifier [normalize_product]
    shows is the key the record is filed under. *)
Theorem normalized_id_is_index_key (R : runtime) (d : disk) (st : state)
    (k : string) (p : record) (v : json) :
  filed_by_pid R st ->
  In (k, p) (PRODUCTS_MAP (load_data R d st)) ->
  dict_get p "product_id_numeric" = Some v ->
  p_id (normalize_product R p) = k.
Proof.
  intros Hst Hin Hv.
  rewrite (load_data_filed_by_pid R d st Hst k p Hin).
  simpl. unfold item_pid, dict_get_default. now rewrite Hv.
Qed.

Lemma normalized_id_is_index_key_witness :
  filed_by_pid ExampleRuntime.py initial_state
  /\ In ("1", Scenarios.blue) (PRODUCTS_MAP Scenarios.loaded)
  /\ dict_get Scenarios.blue "product_id_numeric" = Some (JInt 1)
  /\ p_id (normalize_product ExampleRuntime.py Scenarios.blue) = "1".
Proof.
  assert (In ("1", Scenarios.blue) (PRODUCTS_MAP Scenarios.loaded)) as Hin
    by (left; reflexivity).
  split; [exact (filed_by_pid_initial ExampleRuntime.py)|].
  split; [exact Hin|]. split; [reflexivity|].
  exact (normalized_id_is_index_key ExampleRuntime.py Scenarios.files initial_state
           "1" Scenarios.blue (JInt 1)
           (filed_by_pid_initial ExampleRuntime.py) Hin eq_refl).
Defined.

(** X4: if no key of the name map starts or ends with whitespace, the
    same holds after a load: the loop files every name stripped. *)
Theorem load_data_names_are_stripped (R : runtime) (d : disk) (st : state) :
  names_stripped st ->
  forall n, In n (dict_keys (PRODUCT_NAMES_MAP (load_data R d st))) -> strip n = n.
Proof. intros H. exact (load_data_names_stripped_inv R d st H). Qed.

Lemma names_stripped_initial : names_stripped initial_state.
Proof. intros n []. Qed.

Lemma load_data_names_are_stripped_witness :
  names_stripped initial_state
  /\ PRODUCT_NAMES_MAP
       (load_data ExampleRuntime.py (catalog_only (JList [JDict padded])) initial_state)
     = [("Tea Pot", "4")]
  /\ strip "Tea Pot" = "Tea Pot".
Proof.
  split; [exact names_stripped_initial|]. split; [reflexivity|].
  apply (load_data_names_are_stripped ExampleRuntime.py
           (catalog_only (JList [JDict padded])) initial_state
           names_stripped_initial).
  left; reflexivity.
Defined.

(** X5: the last record of an identifier wins. When the loop reaches a
    record [d] that it keeps and no later entry of the list has the same
    identifier, the product map holds [d] under that identifier after
    the loop, whatever was filed there before and even if the loop fails
    later; and if the name of [d] is a string that no later entry has,
    the name map sends it to the identifier of [d]. *)
Theorem load_items_last_wins (R : runtime) (front back : list json) (d : record)
    (st : state) :
  snd (load_items R front st) = Completed ->
  item_pid R d <> "None" ->
  let final := fst (load_items R (front ++ JDict d :: back) st) in
  ((forall d', In (JDict d') back -> item_pid R d' <> item_pid R d) ->
   dict_get (PRODUCTS_MAP final) (item_pid R d) = Some d)
  /\ (forall n, item_name d = Ok n ->
        (forall d', In (JDict d') back -> item_name d' <> Ok n) ->
        dict_get (PRODUCT_NAMES_MAP final) n = Some (item_pid R d)).
Proof.
  intros Hfront Hpid final. subst final.
  rewrite load_items_app.
  destruct (load_items R front st) as [st1 o]. simpl in Hfront. subst o.
  destruct (load_item_files R d st1 Hpid) as [Hp Hn].
  cbn [load_items].
  destruct (load_item R (JDict d) st1) as [st2 [|e]]; simpl in Hp, Hn.
  - split.
    + intros Hback. now rewrite load_items_get_other.
    + intros n Hname Hback. rewrite load_items_get_other_name; auto.
  - split.
    + intros _. exact Hp.
    + intros n Hname _. simpl. auto.
Qed.

Lemma load_items_last_wins_witness :
  snd (load_items ExampleRuntime.py [JDict Scenarios.blue] initial_state) = Completed
  /\ item_pid ExampleRuntime.py blue_again <> "None"
  /\ dict_get
       (PRODUCTS_MAP
          (fst (load_items ExampleRuntime.py
                  ([JDict Scenarios.blue] ++ JDict blue_again :: [JDict Scenarios.red])
                  initial_state)))
       "1" = Some blue_again.
Proof.
  assert (item_pid ExampleRuntime.py blue_again <> "None") as Hpid by discriminate.
  destruct (load_items_last_wins ExampleRuntime.py [JDict Scenarios.blue]
              [JDict Scenarios.red] blue_again initial_state eq_refl Hpid) as [Hp _].
  split; [reflexivity|]. split; [exact Hpid|].
  apply Hp. intros d' [[= <-]|[]]. discriminate.
Defined.

(** X6: the second candidate file is read only when the first is absent:
    if [product_matrix.json] exists, parsed or not, the result of
    [load_data] does not depend on [product_index_map.json]. *)
Theorem second_candidate_only_when_first_absent (R : runtime) (d : disk)
    (f : file) (st : state) :
  product_matrix_json d <> Absent ->
  load_data R (with_index_map f d) st = load_data R d st.
Proof.
  intros H. unfold load_data, matrix_path. simpl.
  destruct (product_matrix_json d); [contradiction|reflexivity|reflexivity].
Qed.

Lemma second_candidate_only_when_first_absent_witness :
  product_matrix_json
    {| data_dir_exists := true; product_matrix_json := Malformed;
       product_index_map_json := Absent; precomputed_hybrid_json := Absent |}
  <> Absent
  /\ load_data ExampleRuntime.py
       {| data_dir_exists := true; product_matrix_json := Malformed;
          product_index_map_json := Content (JList [JDict Scenarios.blue]);
          precomputed_hybrid_json := Absent |}
       initial_state
     = initial_state.
Proof.
  split; [discriminate|].
  exact (second_candidate_only_when_first_absent ExampleRuntime.py
           {| data_dir_exists := true; product_matrix_json := Malformed;
              product_index_map_json := Absent; precomputed_hybrid_json := Absent |}
           (Content (JList [JDict Scenarios.blue])) initial_state
           ltac:(discriminate)).
Defined.

(** X7: the two halves of [load_data] do not disturb each other. The
    recommendation table after a load is the parsed recommendation file
    when the directory exists and the file parses, and the old table
    otherwise, whatever the catalog files hold (also when the catalog
    loop failed); the two catalog maps do not depend on the
    recommendation file. *)
Theorem catalog_and_recommendations_load_apart (R : runtime) (d : disk) (st : state) :
  RECOMMENDATIONS (load_data R d st)
  = (if data_dir_exists d
     then match precomputed_hybrid_json d with
          | Content table => table
          | _ => RECOMMENDATIONS st
          end
     else RECOMMENDATIONS st)
  /\ forall f,
       PRODUCTS_MAP (load_data R (with_hybrid f d) st) = PRODUCTS_MAP (load_data R d st)
       /\ PRODUCT_NAMES_MAP (load_data R (with_hybrid f d) st)
          = PRODUCT_NAMES_MAP (load_data R d st).
Proof.
  split.
  - unfold load_data. destruct (data_dir_exists d); [|reflexivity].
    assert (RECOMMENDATIONS (fst (load_catalog R (matrix_path d) st))
            = RECOMMENDATIONS st) as Hc.
    { unfold load_catalog. destruct (matrix_path d); try reflexivity.
      apply load_items_recommendations. }
    destruct (precomputed_hybrid_json d); simpl; auto.
  - intros f. unfold load_data, matrix_path. simpl.
    destruct (data_dir_exists d); [|split; reflexivity].
    destruct f, (precomputed_hybrid_json d); split; reflexivity.
Qed.

(** ** [search_products]: where the answers come from *)

Section SearchAnswers.
Variable R : runtime.

Opaque firstn.

Lemma In_firstn {A} n : forall (l : list A) x, In x (firstn n l) -> In x l.
Proof.
  intros l x H. rewrite <- (firstn_skipn n l). apply in_or_app. now left.
Qed.

Lemma filter_nil {A} (f : A -> bool) l :
  (forall x, In x l -> f x = false) -> filter f l = [].
Proof.
  induction l as [|x l IH]; intros H; [reflexivity|].
  simpl. rewrite (H x (or_introl eq_refl)). apply IH.
  intros y Hy. apply H. now right.
Qed.

(** When a stub resolves without raising, it resolves to its target. *)
Lemma resolve_rec_target st rec o :
  resolve_rec st rec = Ok o -> o = stub_target st rec.
Proof.
  unfold resolve_rec, stub_target. destruct rec; try discriminate.
  destruct (dict_get_default d "product_name" JNull); try discriminate;
    try (now intros [= <-]).
  destruct (dict_get (PRODUCT_NAMES_MAP st) s) as [pid|]; [|now intros [= <-]].
  unfold dict_index. destruct (dict_get (PRODUCTS_MAP st) pid); simpl;
    [now intros [= <-] | discriminate].
Qed.

Lemma resolve_all_resolved st recs : forall l,
  resolve_all st recs = Ok l -> l = resolved st recs.
Proof.
  induction recs as [|rec rest IH]; intros l; simpl.
  - now intros [= <-].
  - destruct (resolve_rec st rec) as [o|e] eqn:Ho; cbn [bind]; [|discriminate].
    destruct (resolve_all st rest) as [l'|e]; cbn [bind]; [|discriminate].
    intros [= <-]. rewrite <- (resolve_rec_target st rec o Ho), <- (IH l' eq_refl).
    destruct o; reflexivity.
Qed.

Lemma resolved_in st recs p :
  In p (resolved st recs) -> In p (dict_values (PRODUCTS_MAP st)).
Proof.
  unfold resolved. rewrite in_flat_map. intros [rec [_ Hp]].
  destruct (stub_target st rec) as [p'|] eqn:Ht; [|destruct Hp].
  destruct Hp as [<-|[]].
  unfold stub_target in Ht. destruct rec; try discriminate.
  destruct (dict_get_default d "product_name" JNull); try discriminate.
  destruct (dict_get (PRODUCT_NAMES_MAP st) s); try discriminate.
  exact (dict_get_values _ _ _ Ht).
Qed.

Lemma hybrid_results_in st matched_id l p :
  hybrid_results st matched_id = Ok l -> In p l ->
  In p (dict_values (PRODUCTS_MAP st)).
Proof.
  unfold hybrid_results. destruct matched_id as [pid|]; [|intros [= <-] []].
  destruct (truthy pid); [|intros [= <-] []].
  destruct (py_in pid (RECOMMENDATIONS st)) as [[|]|e]; cbn [bind];
    [| intros [= <-] [] | discriminate].
  destruct (py_index (RECOMMENDATIONS st) pid); cbn [bind]; [|discriminate].
  destruct (py_iter a) as [recs|e]; cbn [bind]; [|discriminate].
  intros Hl Hp. rewrite (resolve_all_resolved st recs l Hl) in Hp.
  exact (resolved_in st recs p Hp).
Qed.

Lemma with_score_in query k ps p :
  In p (with_score R query k ps) -> In p ps /\ score_value R query p = k.
Proof.
  unfold with_score. rewrite filter_In. intros [H1 H2].
  split; [exact H1 | now apply Nat.eqb_eq].
Qed.

Lemma ranking_in query ps p :
  In p (with_score R query 15 ps ++ with_score R query 10 ps
        ++ with_score R query 5 ps) ->
  In p ps /\ 0 < score_value R query p.
Proof.
  rewrite !in_app_iff.
  intros [H|[H|H]]; apply with_score_in in H; destruct H as [H1 H2];
    split; auto; lia.
Qed.

Lemma fallback_in query st l p :
  fallback R query st = Ok l -> In p l ->
  In p (dict_values (PRODUCTS_MAP st)) /\ 0 < score_value R query p.
Proof.
  intros Hl Hp.
  pose proof (fallback_names R query st l Hl) as Hn.
  rewrite (fallback_spec R query st Hn) in Hl. injection Hl as <-.
  apply In_firstn in Hp. exact (ranking_in query _ p Hp).
Qed.

Lemma search_records_in q st l p :
  search_records R q st = Ok l -> In p l ->
  In p (dict_values (PRODUCTS_MAP st)).
Proof.
  unfold search_records.
  destruct (truthy (query_of q)); [|intros [= <-] []].
  destruct (brand_matches R (query_of q) st) as [|b bs] eqn:Hb.
  - destruct (find_anchor (query_of q) (PRODUCTS_MAP st)) as [o|e];
      cbn [bind]; [|discriminate].
    destruct (hybrid_results st o) as [[|r rs]|e] eqn:Hh; cbn [bind];
      [| |discriminate].
    + intros Hl Hp. exact (proj1 (fallback_in _ st l p Hl Hp)).
    + intros Hl Hp. injection Hl as <-. apply In_firstn in Hp.
      exact (hybrid_results_in st o _ p Hh Hp).
  - intros Hl Hp. injection Hl as <-. apply In_firstn in Hp.
    rewrite <- Hb in Hp. apply (brand_matches_In R) in Hp. tauto.
Qed.

Transparent firstn.

End SearchAnswers.

(** X8: [search_products] never makes up a product: whenever it returns a
    list, every element is [normalize_product] of a record of the product
    map, whichever tier answered and whatever the recommendation table
    names. *)
Theorem search_answers_come_from_catalog (R : runtime) (q : option string)
    (st : state) (l : list normalized) :
  search_products R q st = Ok l ->
  forall n, In n l ->
    exists p, In p (dict_values (PRODUCTS_MAP st)) /\ n = normalize_product R p.
Proof.
  unfold search_products.
  destruct (search_records R q st) as [recs|e] eqn:Hrecs; cbn [bind];
    [|discriminate].
  intros [= <-] n Hn. apply in_map_iff in Hn. destruct Hn as [p [<- Hp]].
  exists p. split; [|reflexivity].
  exact (search_records_in R q st recs p Hrecs Hp).
Qed.

Lemma search_answers_come_from_catalog_witness :
  search_products ExampleRuntime.py (Some "blue") Scenarios.loaded
  = Ok [normalize_product ExampleRuntime.py Scenarios.red]
  /\ exists p, In p (dict_values (PRODUCTS_MAP Scenarios.loaded))
               /\ normalize_product ExampleRuntime.py Scenarios.red
                  = normalize_product ExampleRuntime.py p.
Proof.
  split; [reflexivity|].
  apply (search_answers_come_from_catalog ExampleRuntime.py (Some "blue")
           Scenarios.loaded [normalize_product ExampleRuntime.py Scenarios.red]
           eq_refl).
  left; reflexivity.
Defined.

(** X9: the answer does not depend on the case of the query nor on
    whitespace around it: lowering the query, or stripping it, before the
    call changes nothing. *)
Theorem search_ignores_case_and_padding (R : runtime) (s : string) (st : state) :
  search_products R (Some (lower s)) st = search_products R (Some s) st
  /\ search_products R (Some (strip s)) st = search_products R (Some s) st.
Proof.
  assert (query_of (Some (lower s)) = query_of (Some s)) as H1.
  { unfold query_of, q_arg. now rewrite lower_lower. }
  assert (query_of (Some (strip s)) = query_of (Some s)) as H2.
  { unfold query_of, q_arg. now rewrite <- strip_lower, strip_strip. }
  unfold search_products, search_records. rewrite H1, H2. split; reflexivity.
Qed.

Section NoMatch.
Variable R : runtime.

Lemma find_anchor_none query items :
  Forall name_is_str (dict_values items) ->
  (forall p, In p (dict_values items) -> name_has query p = false) ->
  find_anchor query items = Ok None.
Proof.
  induction items as [|[pid p] rest IH]; intros Hs Hn; [reflexivity|].
  inversion Hs as [|? ? Hp Hrest]; subst. simpl.
  destruct (name_lower_ok p Hp) as [n Hlow].
  pose proof (Hn p (or_introl eq_refl)) as Hhas.
  unfold name_has in Hhas. rewrite Hlow in *. cbn [bind]. rewrite Hhas.
  apply IH; [exact Hrest|]. intros p' Hp'. apply Hn. now right.
Qed.

Lemma brand_match_has query p :
  brand_match R query p = true -> brand_has R query p = true.
Proof.
  unfold brand_match, brand_has. intros H. apply String.eqb_eq in H.
  rewrite <- H. apply contains_refl.
Qed.

Lemma search_records_no_match q st :
  names_are_strings st ->
  (forall p, In p (dict_values (PRODUCTS_MAP st)) ->
     name_has (query_of q) p = false /\ brand_has R (query_of q) p = false) ->
  search_records R q st = Ok [].
Proof.
  intros Hs Hno. unfold search_records.
  destruct (truthy (query_of q)); [|reflexivity].
  assert (brand_matches R (query_of q) st = []) as Hb.
  { apply filter_nil. intros p Hp.
    destruct (brand_match R (query_of q) p) eqn:Hm; [|reflexivity].
    apply brand_match_has in Hm. destruct (Hno p Hp). congruence. }
  rewrite Hb, (find_anchor_none (query_of q) (PRODUCTS_MAP st) Hs).
  - cbn [bind hybrid_results].
    rewrite (fallback_spec R (query_of q) st Hs).
    assert (forall k, 0 < k ->
              with_score R (query_of q) k (dict_values (PRODUCTS_MAP st)) = [])
      as Hw.
    { intros k Hk. apply filter_nil. intros p Hp.
      destruct (Hno p Hp) as [H1 H2]. unfold score_value. rewrite H1, H2.
      destruct k; [lia|reflexivity]. }
    rewrite !Hw by lia. reflexivity.
  - intros p Hp. exact (proj1 (Hno p Hp)).
Qed.

End NoMatch.

(** X10: when every name of the catalog is a string and no record has the
    query (lowered and stripped) in its lowered name or in its lowered
    brand, the answer is the empty list, whatever the recommendation
    table and the name map hold; in particular every query gets the empty
    list from an empty catalog. *)
Theorem search_no_match_is_empty (R : runtime) (q : option string) (st : state) :
  names_are_strings st ->
  (forall p, In p (dict_values (PRODUCTS_MAP st)) ->
     name_has (query_of q) p = false /\ brand_has R (query_of q) p = false) ->
  search_products R q st = Ok [].
Proof.
  intros Hs Hno. unfold search_products.
  now rewrite (search_records_no_match R q st Hs Hno).
Qed.

Lemma search_no_match_is_empty_witness :
  names_are_strings
    {| PRODUCTS_MAP := []; PRODUCT_NAMES_MAP := [("ghost", "0")];
       RECOMMENDATIONS := JInt 5 |}
  /\ search_products ExampleRuntime.py (Some "lamp")
       {| PRODUCTS_MAP := []; PRODUCT_NAMES_MAP := [("ghost", "0")];
          RECOMMENDATIONS := JInt 5 |}
     = Ok [].
Proof.
  assert (names_are_strings
            {| PRODUCTS_MAP := []; PRODUCT_NAMES_MAP := [("ghost", "0")];
               RECOMMENDATIONS := JInt 5 |}) as Hs by constructor.
  split; [exact Hs|].
  apply (search_no_match_is_empty ExampleRuntime.py (Some "lamp") _ Hs).
  intros p [].
Defined.

(** X11: the anchor of tier 2 is the first match only. When the anchor
    loop ends with an identifier, the catalog splits into the records
    before it, none of which has the query in its lowered name, the
    record filed under that identifier, which has, and the rest, which
    was not read; when it ends without one, no record has the query in
    its name. *)
Theorem anchor_is_first_match (query : string) (items : pydict record) :
  (forall pid, find_anchor query items = Ok (Some pid) ->
     exists front p back,
       items = front ++ (pid, p) :: back
       /\ name_has query p = true
       /\ Forall (fun kp => name_has query (snd kp) = false) front)
  /\ (find_anchor query items = Ok None ->
      Forall (fun kp => name_has query (snd kp) = false) items).
Proof.
  induction items as [|[k p] rest [IH1 IH2]].
  - split; [discriminate | constructor].
  - cbn [find_anchor].
    destruct (name_lower p) as [n|e] eqn:Hn; cbn [bind]; [|split; discriminate].
    assert (name_has query p = contains query n) as Hhas.
    { unfold name_has. now rewrite Hn. }
    destruct (contains query n) eqn:Hc.
    + split; [|discriminate]. intros pid [= <-].
      exists [], p, rest. repeat split; [exact Hhas | constructor].
    + split.
      * intros pid H. destruct (IH1 pid H) as [front [p' [back [-> [Hh Hf]]]]].
        exists ((k, p) :: front), p', back. repeat split; [exact Hh|].
        constructor; [exact Hhas | exact Hf].
      * intros H. constructor; [exact Hhas | exact (IH2 H)].
Qed.

Lemma anchor_is_first_match_witness :
  find_anchor "widget" (PRODUCTS_MAP Scenarios.loaded) = Ok (Some "1")
  /\ exists front p back,
       PRODUCTS_MAP Scenarios.loaded = front ++ ("1", p) :: back
       /\ name_has "widget" p = true
       /\ Forall (fun kp => name_has "widget" (snd kp) = false) front.
Proof.
  split; [reflexivity|].
  exact (proj1 (anchor_is_first_match "widget" (PRODUCTS_MAP Scenarios.loaded))
           "1" eq_refl).
Defined.

(** ** Tier 2: the recommendations of the anchor *)

Section HybridTier.
Variable R : runtime.

Lemma resolve_all_spec st recs :
  names_resolve st -> Forall stub_ok recs ->
  resolve_all st recs = Ok (resolved st recs).
Proof.
  intros Hst Hrecs.
  destruct (resolve_all_ok st recs Hst Hrecs) as [l Hl].
  now rewrite Hl, (resolve_all_resolved st recs l Hl).
Qed.

Lemma hybrid_results_spec st pid table stubs :
  pid <> EmptyString ->
  RECOMMENDATIONS st = JDict table ->
  dict_get table pid = Some (JList stubs) ->
  Forall stub_ok stubs ->
  names_resolve st ->
  hybrid_results st (Some pid) = Ok (resolved st stubs).
Proof.
  intros Hpid Ht Hg Hs Hn. unfold hybrid_results.
  rewrite (truthy_nonempty pid Hpid), Ht. simpl.
  unfold dict_mem, dict_index. rewrite Hg. simpl.
  exact (resolve_all_spec st stubs Hn Hs).
Qed.

Lemma hybrid_results_skipped st anchor table :
  RECOMMENDATIONS st = JDict table ->
  match anchor with
  | None => True
  | Some pid => pid = EmptyString \/ dict_get table pid = None
  end ->
  hybrid_results st anchor = Ok [].
Proof.
  intros Ht H. unfold hybrid_results. destruct anchor as [pid|]; [|reflexivity].
  destruct H as [->|Hg]; [reflexivity|].
  destruct (truthy pid); [|reflexivity].
  rewrite Ht. simpl. unfold dict_mem. now rewrite Hg.
Qed.

End HybridTier.

(** X12: tier 2 answers with the recommendations of the anchor. For a
    query that is not empty once lowered and stripped and that no brand
    equals, when the anchor has a non-empty identifier whose entry in the
    recommendation table is a list of stubs, and the name map only holds
    indexed identifiers, the answer is the catalog records that the stub
    names resolve to through the name map, in the order of the entry, cut
    to the first 20 and normalized; stubs whose name is unknown are left
    out, and only if none resolves does tier 3 answer. *)
Theorem hybrid_tier_answer (R : runtime) (q : option string) (st : state)
    (pid : string) (table : pydict json) (stubs : list json) :
  query_of q <> EmptyString ->
  brand_matches R (query_of q) st = [] ->
  find_anchor (query_of q) (PRODUCTS_MAP st) = Ok (Some pid) ->
  pid <> EmptyString ->
  RECOMMENDATIONS st = JDict table ->
  dict_get table pid = Some (JList stubs) ->
  Forall stub_ok stubs ->
  names_resolve st ->
  search_products R q st
  = match resolved st stubs with
    | [] => recs <- fallback R (query_of q) st ;; Ok (map (normalize_product R) recs)
    | _ :: _ => Ok (map (normalize_product R) (firstn 20 (resolved st stubs)))
    end.
Proof.
  intros Hq Hb Ha Hpid Ht Hg Hs Hn.
  unfold search_products, search_records.
  rewrite (truthy_nonempty _ Hq), Hb, Ha. cbn [bind].
  rewrite (hybrid_results_spec st pid table stubs Hpid Ht Hg Hs Hn). cbn [bind].
  destruct (resolved st stubs); reflexivity.
Qed.

Lemma hybrid_tier_answer_witness :
  query_of (Some "Blue") <> EmptyString
  /\ brand_matches ExampleRuntime.py (query_of (Some "Blue")) Scenarios.loaded = []
  /\ find_anchor (query_of (Some "Blue")) (PRODUCTS_MAP Scenarios.loaded)
     = Ok (Some "1")
  /\ Forall stub_ok [JDict [("product_name", JStr "Red Widget")]]
  /\ names_resolve Scenarios.loaded
  /\ search_products ExampleRuntime.py (Some "Blue") Scenarios.loaded
     = Ok [normalize_product ExampleRuntime.py Scenarios.red].
Proof.
  assert (query_of (Some "Blue") <> EmptyString) as Hq by discriminate.
  assert (Forall stub_ok [JDict [("product_name", JStr "Red Widget")]]) as Hs
    by (repeat constructor).
  assert (names_resolve Scenarios.loaded) as Hn
    by (apply load_data_names_resolve, names_resolve_initial).
  repeat (split; [first [exact Hq | exact Hs | exact Hn | reflexivity]|]).
  rewrite (hybrid_tier_answer ExampleRuntime.py (Some "Blue") Scenarios.loaded "1"
             [("1", JList [JDict [("product_name", JStr "Red Widget")]])]
             [JDict [("product_name", JStr "Red Widget")]]
             Hq eq_refl eq_refl ltac:(discriminate) eq_refl eq_refl Hs Hn).
  reflexivity.
Defined.

(** X13: tier 2 is passed over, and tier 3 answers, when no record has the
    query in its name, when the anchor is filed under the empty
    identifier, or when the recommendation table (a dictionary) has no
    entry for the anchor. *)
Theorem hybrid_tier_skipped (R : runtime) (q : option string) (st : state)
    (anchor : option string) (table : pydict json) :
  query_of q <> EmptyString ->
  brand_matches R (query_of q) st = [] ->
  find_anchor (query_of q) (PRODUCTS_MAP st) = Ok anchor ->
  RECOMMENDATIONS st = JDict table ->
  match anchor with
  | None => True
  | Some pid => pid = EmptyString \/ dict_get table pid = None
  end ->
  search_products R q st
  = (recs <- fallback R (query_of q) st ;; Ok (map (normalize_product R) recs)).
Proof.
  intros Hq Hb Ha Ht Hskip.
  unfold search_products, search_records.
  rewrite (truthy_nonempty _ Hq), Hb, Ha. cbn [bind].
  now rewrite (hybrid_results_skipped st anchor table Ht Hskip).
Qed.

Lemma hybrid_tier_skipped_witness :
  query_of (Some "red") <> EmptyString
  /\ brand_matches ExampleRuntime.py (query_of (Some "red")) Scenarios.loaded = []
  /\ find_anchor (query_of (Some "red")) (PRODUCTS_MAP Scenarios.loaded)
     = Ok (Some "2")
  /\ dict_get [("1", JList [JDict [("product_name", JStr "Red Widget")]])] "2" = None
  /\ search_products ExampleRuntime.py (Some "red") Scenarios.loaded
     = Ok [normalize_product ExampleRuntime.py Scenarios.red].
Proof.
  assert (query_of (Some "red") <> EmptyString) as Hq by discriminate.
  repeat (split; [first [exact Hq | reflexivity]|]).
  rewrite (hybrid_tier_skipped ExampleRuntime.py (Some "red") Scenarios.loaded
             (Some "2") [("1", JList [JDict [("product_name", JStr "Red Widget")]])]
             Hq eq_refl eq_refl eq_refl (or_intror eq_refl)).
  reflexivity.
Defined.

(** X14: every record tier 3 answers with has the query in its lowered
    name or in its lowered brand. *)
Theorem fallback_answers_contain_query (R : runtime) (query : string) (st : state)
    (l : list record) :
  fallback R query st = Ok l ->
  forall p, In p l -> name_has query p = true \/ brand_has R query p = true.
Proof.
  intros Hl p Hp. destruct (fallback_in R query st l p Hl Hp) as [_ Hpos].
  unfold score_value in Hpos.
  destruct (name_has query p); [now left|].
  destruct (brand_has R query p); [now right|]. simpl in Hpos. lia.
Qed.

Lemma fallback_answers_contain_query_witness :
  fallback ExampleRuntime.py "lamp" Lamps.loaded
  = Ok [Lamps.lamp; Lamps.sun_lamp; Lamps.floor_lamp; Lamps.desk]
  /\ (name_has "lamp" Lamps.desk = true
      \/ brand_has ExampleRuntime.py "lamp" Lamps.desk = true).
Proof.
  split; [reflexivity|].
  apply (fallback_answers_contain_query ExampleRuntime.py "lamp" Lamps.loaded
           [Lamps.lamp; Lamps.sun_lamp; Lamps.floor_lamp; Lamps.desk] eq_refl).
  right; right; right; left; reflexivity.
Defined.

(** ** What a search can raise *)

Section SearchRaises.
Variable R : runtime.

Lemma name_lower_raise p e : name_lower p = Raise e -> e = AttributeError.
Proof.
  unfold name_lower.
  destruct (dict_get_default p "product_name" (JStr "")); congruence.
Qed.

Lemma find_anchor_raise query items e :
  find_anchor query items = Raise e -> e = AttributeError.
Proof.
  induction items as [|[pid p] rest IH]; simpl; [discriminate|].
  destruct (name_lower p) as [n|e'] eqn:Hn; cbn [bind].
  - destruct (contains query n); [discriminate|exact IH].
  - intros [= <-]. exact (name_lower_raise p e' Hn).
Qed.

Lemma scan_raise query ps e :
  scan R query ps = Raise e -> e = AttributeError.
Proof.
  induction ps as [|p rest IH]; simpl; [discriminate|].
  unfold score. destruct (name_lower p) as [n|e'] eqn:Hn; cbn [bind].
  - destruct (scan R query rest); cbn [bind]; [discriminate|exact IH].
  - intros [= <-]. exact (name_lower_raise p e' Hn).
Qed.

Lemma resolve_rec_raise st rec e :
  names_resolve st ->
  resolve_rec st rec = Raise e -> e = AttributeError \/ e = TypeError.
Proof.
  intros Hst. unfold resolve_rec.
  destruct rec; try (intros [= <-]; now left).
  destruct (dict_get_default d "product_name" JNull); try discriminate;
    try (intros [= <-]; now right).
  destruct (dict_get (PRODUCT_NAMES_MAP st) s) as [pid|] eqn:Hn; [|discriminate].
  assert (In pid (dict_keys (PRODUCTS_MAP st))) as Hk.
  { apply Hst. exact (dict_get_values _ _ _ Hn). }
  apply dict_mem_keys in Hk. unfold dict_mem in Hk. unfold dict_index.
  destruct (dict_get (PRODUCTS_MAP st) pid); [discriminate|discriminate].
Qed.

Lemma resolve_all_raise st recs e :
  names_resolve st ->
  resolve_all st recs = Raise e -> e = AttributeError \/ e = TypeError.
Proof.
  intros Hst. induction recs as [|rec rest IH]; simpl; [discriminate|].
  destruct (resolve_rec st rec) as [o|e'] eqn:Ho; cbn [bind].
  - destruct (resolve_all st rest); cbn [bind]; [discriminate|exact IH].
  - intros [= <-]. exact (resolve_rec_raise st rec e' Hst Ho).
Qed.

Lemma hybrid_results_raise st matched_id e :
  names_resolve st ->
  hybrid_results st matched_id = Raise e -> e = AttributeError \/ e = TypeError.
Proof.
  intros Hst. unfold hybrid_results.
  destruct matched_id as [pid|]; [|discriminate].
  destruct (truthy pid); [|discriminate].
  destruct (RECOMMENDATIONS st) as [| | | | s | l | table]; simpl;
    try (intros [= <-]; now right).
  - destruct (contains pid s); [intros [= <-]; now right | discriminate].
  - destruct (existsb _ l); [intros [= <-]; now right | discriminate].
  - unfold dict_mem, dict_index.
    destruct (dict_get table pid) as [v|]; [|discriminate]. cbn [bind].
    destruct v; simpl; try (intros [= <-]; now right);
      apply resolve_all_raise; exact Hst.
Qed.

Lemma search_records_raise q st e :
  names_resolve st ->
  search_records R q st = Raise e -> e = AttributeError \/ e = TypeError.
Proof.
  intros Hst. unfold search_records.
  destruct (truthy (query_of q)); [|discriminate].
  destruct (brand_matches R (query_of q) st); [|discriminate].
  destruct (find_anchor (query_of q) (PRODUCTS_MAP st)) as [o|e'] eqn:Ha;
    cbn [bind].
  - destruct (hybrid_results st o) as [[|r rs]|e'] eqn:Hh; cbn [bind].
    + unfold fallback.
      destruct (scan R (query_of q) (dict_values (PRODUCTS_MAP st))) as [sc|e']
        eqn:Hs; cbn [bind]; [discriminate|].
      intros [= <-]. left. exact (scan_raise _ _ e' Hs).
    + discriminate.
    + intros [= <-]. exact (hybrid_results_raise st o e' Hst Hh).
  - intros [= <-]. left. exact (find_anchor_raise _ _ e' Ha).
Qed.

End SearchRaises.

(** X15: on a state whose name map only holds indexed identifiers, which
    is every state [load_data] builds from the empty globals, an
    exception of [search_products] is an [AttributeError] (a name that is
    not a string, a stub that is not a record) or a [TypeError] (a
    recommendation table or entry of the wrong shape, a stub name that
    cannot be hashed); the lookup [PRODUCTS_MAP[PRODUCT_NAMES_MAP[...]]]
    never raises [KeyError]. *)
Theorem search_raises_no_key_error (R : runtime) (q : option string) (st : state)
    (e : exn) :
  names_resolve st ->
  search_products R q st = Raise e ->
  e = AttributeError \/ e = TypeError.
Proof.
  intros Hst. unfold search_products.
  destruct (search_records R q st) as [recs|e'] eqn:Hr; cbn [bind]; [discriminate|].
  intros [= <-]. exact (search_records_raise R q st e' Hst Hr).
Qed.

Lemma search_raises_no_key_error_witness :
  names_resolve
    (load_data ExampleRuntime.py (catalog_only (JList [JDict nameless])) initial_state)
  /\ search_products ExampleRuntime.py (Some "lamp")
       (load_data ExampleRuntime.py (catalog_only (JList [JDict nameless]))
          initial_state)
     = Raise AttributeError
  /\ (AttributeError = AttributeError \/ AttributeError = TypeError).
Proof.
  assert (names_resolve
            (load_data ExampleRuntime.py (catalog_only (JList [JDict nameless]))
               initial_state)) as Hst
    by (apply load_data_names_resolve, names_resolve_initial).
  split; [exact Hst|]. split; [reflexivity|].
  exact (search_raises_no_key_error ExampleRuntime.py (Some "lamp") _
           AttributeError Hst eq_refl).
Defined.

(** ** [get_top_products] *)

(** X16: [get_top_products] answers with the first records of the catalog
    in catalog order, normalized: as many as the catalog has, and never
    more than 20; the test for an empty catalog changes nothing. *)
Theorem get_top_products_first_twenty (R : runtime) (st : state) :
  get_top_products R st
  = map (normalize_product R) (firstn 20 (dict_values (PRODUCTS_MAP st)))
  /\ List.length (get_top_products R st) = Nat.min 20 (List.length (PRODUCTS_MAP st)).
Proof.
  assert (get_top_products R st
          = map (normalize_product R) (firstn 20 (dict_values (PRODUCTS_MAP st))))
    as H.
  { unfold get_top_products. destruct (PRODUCTS_MAP st); reflexivity. }
  split; [exact H|].
  rewrite H, length_map, length_firstn. unfold dict_values.
  now rewrite length_map.
Qed.

(** ** The discounted price *)

(** X17: whatever the price, when [discounted_price] is absent or refused
    by [float], the discounted price [normalize_product] shows is the
    price it shows (no discount), not [0.0]. *)
Theorem normalize_product_no_discount (R : runtime) (p : record) :
  field_numeric R p "discounted_price" = false ->
  discounted_price (normalize_product R p) = prices (normalize_product R p).
Proof. intros H. simpl. now apply disc_of_default. Qed.

Lemma normalize_product_no_discount_witness :
  field_numeric ExampleRuntime.py priced "discounted_price" = false
  /\ py_float ExampleRuntime.py (JInt 50)
     = Ok (prices (normalize_product ExampleRuntime.py priced))
  /\ discounted_price (normalize_product ExampleRuntime.py priced)
     = prices (normalize_product ExampleRuntime.py priced).
Proof.
  split; [reflexivity|]. split; [reflexivity|].
  exact (normalize_product_no_discount ExampleRuntime.py priced eq_refl).
Defined.

(** ** Edge cases of the load loop *)

Section LoadEdges.
Variable R : runtime.

Lemma item_name_str d n : item_name d = Ok n -> name_is_str d.
Proof.
  unfold item_name, name_is_str.
  destruct (dict_get_default d "product_name" (JStr "")); try discriminate.
  trivial.
Qed.

Lemma item_name_raise d : ~ name_is_str d -> item_name d = Raise AttributeError.
Proof.
  unfold item_name, name_is_str.
  destruct (dict_get_default d "product_name" (JStr "")); try reflexivity.
  intros H. now destruct H.
Qed.

Lemma names_are_strings_set_product pid d st :
  names_are_strings st -> name_is_str d ->
  names_are_strings (set_product pid d st).
Proof.
  unfold names_are_strings. rewrite !Forall_forall. intros H Hd p Hp.
  simpl in Hp. destruct (dict_values_set _ _ _ _ Hp) as [->|Hold]; auto.
Qed.

Lemma load_item_completed_names item st st' :
  names_are_strings st -> load_item R item st = (st', Completed) ->
  names_are_strings st'.
Proof.
  intros H. destruct item; simpl; try (intros [= <-]; exact H); try discriminate.
  destruct (String.eqb (item_pid R d) "None"); [intros [= <-]; exact H|].
  destruct (item_name d) as [n|e] eqn:Hn; [|discriminate].
  intros [= <-].
  exact (names_are_strings_set_product _ d st H (item_name_str d n Hn)).
Qed.

Lemma load_items_completed_names items : forall st,
  names_are_strings st -> snd (load_items R items st) = Completed ->
  names_are_strings (fst (load_items R items st)).
Proof.
  induction items as [|item rest IH]; intros st H; simpl; [auto|].
  destruct (load_item R item st) as [st' [|e]] eqn:Hi; simpl; [|discriminate].
  apply IH. exact (load_item_completed_names item st st' H Hi).
Qed.

Lemma load_data_completed_names d st :
  names_are_strings st -> catalog_outcome R d st = Completed ->
  names_are_strings (load_data R d st).
Proof.
  unfold catalog_outcome, load_data. intros H.
  destruct (data_dir_exists d); [|auto].
  intros Hc.
  assert (names_are_strings (fst (load_catalog R (matrix_path d) st))) as H1.
  { unfold load_catalog in *. destruct (matrix_path d); simpl in *; auto.
    now apply load_items_completed_names. }
  unfold load_recommendations. destruct (precomputed_hybrid_json d); auto.
Qed.

End LoadEdges.

(** X18: the fallback to [product_id] is for a missing key only: a record
    whose [product_id_numeric] is [null] is dropped, whatever its
    [product_id], and the loop goes on with the next entry. *)
Theorem null_numeric_id_drops_record (R : runtime) (d : record) (rest : list json)
    (st : state) :
  dict_get d "product_id_numeric" = Some JNull ->
  load_items R (JDict d :: rest) st = load_items R rest st.
Proof.
  intros H. cbn [load_items].
  now rewrite (load_item_drops_None R d st (item_pid_null_numeric R d H)).
Qed.

Lemma null_numeric_id_drops_record_witness :
  dict_get null_id "product_id_numeric" = Some JNull
  /\ load_items ExampleRuntime.py [JDict null_id; JDict Scenarios.red] initial_state
     = load_items ExampleRuntime.py [JDict Scenarios.red] initial_state.
Proof.
  split; [reflexivity|].
  exact (null_numeric_id_drops_record ExampleRuntime.py null_id
           [JDict Scenarios.red] initial_state eq_refl).
Defined.

(** X19: a record whose [product_name] is there but is not a string is
    put in the product map, under its identifier, before the loop fails
    on it with an [AttributeError]: the name map is left as it was and no
    later entry is read. *)
Theorem non_string_name_stops_load (R : runtime) (d : record) (rest : list json)
    (st : state) :
  item_pid R d <> "None" ->
  ~ name_is_str d ->
  load_items R (JDict d :: rest) st
  = (set_product (item_pid R d) d st, Failed AttributeError).
Proof.
  intros Hpid Hname. cbn [load_items load_item].
  destruct (String.eqb_spec (item_pid R d) "None"); [contradiction|].
  now rewrite (item_name_raise d Hname).
Qed.

Lemma non_string_name_stops_load_witness :
  item_pid ExampleRuntime.py nameless <> "None"
  /\ ~ name_is_str nameless
  /\ load_items ExampleRuntime.py [JDict nameless; JDict Scenarios.red] initial_state
     = ({| PRODUCTS_MAP := [("1", nameless)]; PRODUCT_NAMES_MAP := [];
           RECOMMENDATIONS := JDict [] |}, Failed AttributeError).
Proof.
  assert (item_pid ExampleRuntime.py nameless <> "None") as Hpid by discriminate.
  assert (~ name_is_str nameless) as Hname by (intros H; exact H).
  split; [exact Hpid|]. split; [exact Hname|].
  exact (non_string_name_stops_load ExampleRuntime.py nameless
           [JDict Scenarios.red] initial_state Hpid Hname).
Defined.

(** X20: load and search together. If the catalog loop of [load_data] ran
    to its end on globals whose names were strings and whose name map
    only held indexed identifiers (the empty globals, for one), and the
    recommendation table it leaves maps identifiers to lists of stubs,
    then [search_products] raises nothing on the loaded state: it returns
    a list for every query. *)
Theorem search_after_completed_load (R : runtime) (d : disk) (st : state)
    (q : option string) :
  names_are_strings st ->
  names_resolve st ->
  catalog_outcome R d st = Completed ->
  table_ok (RECOMMENDATIONS (load_data R d st)) ->
  exists l, search_products R q (load_data R d st) = Ok l.
Proof.
  intros Hs Hn Hc Ht.
  assert (well_formed (load_data R d st)) as Hwf.
  { split; [|split]; [|exact Ht|].
    - exact (load_data_completed_names R d st Hs Hc).
    - exact (load_data_names_resolve R d st Hn). }
  destruct (search_records_ok R q (load_data R d st) Hwf) as [recs Hrecs].
  exists (map (normalize_product R) recs).
  unfold search_products. now rewrite Hrecs.
Qed.

Lemma search_after_completed_load_witness :
  names_are_strings initial_state
  /\ names_resolve initial_state
  /\ catalog_outcome ExampleRuntime.py Scenarios.files initial_state = Completed
  /\ table_ok (RECOMMENDATIONS Scenarios.loaded)
  /\ exists l, search_products ExampleRuntime.py (Some "widget") Scenarios.loaded = Ok l.
Proof.
  assert (names_are_strings initial_state) as Hs by constructor.
  assert (table_ok (RECOMMENDATIONS Scenarios.loaded)) as Ht by (repeat constructor).
  split; [exact Hs|]. split; [exact names_resolve_initial|].
  split; [reflexivity|]. split; [exact Ht|].
  exact (search_after_completed_load ExampleRuntime.py Scenarios.files initial_state
           (Some "widget") Hs names_resolve_initial eq_refl Ht).
Defined.
